(** * TrendLab (app.py): a shallow embedding of the Streamlit script

    The script of [src/app.py] is a page selector kept in the session state,
    a CSV ingestor and two renderers that call pandas, statsmodels and scipy
    and print what they return.  The script is embedded as a computation in
    a small state-and-exception monad: the state is the session field
    [st.session_state.page] together with a log of everything the run asked
    of Streamlit and of the statistics libraries, the exceptions are
    Python's.  The libraries themselves are a parameter of the model. *)

From Stdlib Require Import String Ascii List ZArith Bool Floats Lia.
Import ListNotations.

Set Warnings "-inexact-float".
Set Implicit Arguments.

Open Scope string_scope.
Open Scope list_scope.

(** ** Python values used by the script *)

Module Py.

(** [str.lower()].  The script only looks for the ASCII word [date] in the
    lowered name.  A name is a UTF-8 byte string; every byte of a character
    outside ASCII is at least 128, and no such character lowers to one of
    the letters d, a, t, e, so those bytes are left as they are. *)
Definition lower_char (c : ascii) : ascii :=
  let n := nat_of_ascii c in
  if (65 <=? n)%nat && (n <=? 90)%nat then ascii_of_nat (n + 32) else c.

Fixpoint lower (s : string) : string :=
  match s with
  | EmptyString => EmptyString
  | String c s' => String (lower_char c) (lower s')
  end.

(** [sub in s] on strings. *)
Fixpoint contains (sub s : string) : bool :=
  match s with
  | EmptyString => prefix sub EmptyString
  | String _ s' => prefix sub s || contains sub s'
  end.

(** Exceptions.  [except Exception] catches the third kind only, a bare
    [except] catches all three; [st.stop()] raises the first, which the
    Streamlit runtime takes as the normal end of the run. *)
Inductive exn : Type :=
| StopException
| BaseException (name msg : string)
| Exception (name msg : string).

Definition is_Exception (e : exn) : bool :=
  match e with
  | Exception _ _ => true
  | _ => false
  end.

(** [str(e)], as the f-string of the decomposition warning prints it. *)
Definition str (e : exn) : string :=
  match e with
  | StopException => ""
  | BaseException _ msg => msg
  | Exception _ msg => msg
  end.

Inductive res (A : Type) : Type :=
| Ok (a : A)
| Err (e : exn).
Arguments Ok {A} a.
Arguments Err {A} e.

(** [l[i]] on a list. *)
Definition item {A : Type} (l : list A) (i : nat) : res A :=
  match nth_error l i with
  | Some a => Ok a
  | None => Err (Exception "IndexError" "list index out of range")
  end.

(** [str(x)] of a value that may be [None]. *)
Definition str_opt (x : option string) : string :=
  match x with
  | Some s => s
  | None => "None"
  end.

End Py.
Import Py.

(** ** Tables *)

Inductive cell : Type :=
| c_int (z : Z)
| c_float (x : float)
| c_str (s : string)
| c_bool (b : bool)
| c_nan
| c_datetime (ns : Z).

Inductive dtype : Type := int64 | float64 | object | bool_ | datetime64.

Definition dtype_eqb (a b : dtype) : bool :=
  match a, b with
  | int64, int64 | float64, float64 | object, object
  | bool_, bool_ | datetime64, datetime64 => true
  | _, _ => false
  end.

Record Series : Type := mkSeries {
  s_name : option string;
  s_index : list cell;
  s_values : list cell
}.

Record Column : Type := mkColumn {
  c_name : string;
  c_dtype : dtype;
  c_values : list cell
}.

(** A data frame: the row index (named after [set_index]) and the columns in
    their order. *)
Record DataFrame : Type := mkDataFrame {
  df_index_name : option string;
  df_index : list cell;
  df_columns : list Column
}.

Module pandas.

(** [df.columns] *)
Definition columns (df : DataFrame) : list string :=
  map c_name (df_columns df).

(** [df[key]] *)
Definition getitem (df : DataFrame) (key : option string) : res Series :=
  match key with
  | None => Err (Exception "KeyError" "None")
  | Some k =>
      match find (fun c => c_name c =? k) (df_columns df) with
      | Some c => Ok (mkSeries (Some k) (df_index df) (c_values c))
      | None => Err (Exception "KeyError" k)
      end
  end.

(** [df[key] = s], for a column that exists. *)
Definition setitem (df : DataFrame) (k : string) (dt : dtype) (s : Series)
  : DataFrame :=
  mkDataFrame (df_index_name df) (df_index df)
    (map (fun c => if c_name c =? k then mkColumn k dt (s_values s) else c)
         (df_columns df)).

(** [df.set_index(key, inplace=True)] *)
Definition set_index (df : DataFrame) (k : string) : res DataFrame :=
  match find (fun c => c_name c =? k) (df_columns df) with
  | Some c =>
      Ok (mkDataFrame (Some k) (c_values c)
            (filter (fun c => negb (c_name c =? k)) (df_columns df)))
  | None => Err (Exception "KeyError" k)
  end.

(** [df.head()] *)
Definition head (df : DataFrame) : DataFrame :=
  mkDataFrame (df_index_name df) (firstn 5 (df_index df))
    (map (fun c => mkColumn (c_name c) (c_dtype c) (firstn 5 (c_values c)))
         (df_columns df)).

(** [df.select_dtypes(include=...).columns] *)
Definition select_dtypes (include : list dtype) (df : DataFrame)
  : list string :=
  map c_name
    (filter (fun c => existsb (dtype_eqb (c_dtype c)) include)
            (df_columns df)).

End pandas.

(** ** Objects of statsmodels and matplotlib *)

Record UploadedFile : Type := mkUploadedFile {
  file_name : string;
  file_bytes : string
}.

Record DecomposeResult : Type := mkDecomposeResult {
  observed : Series;
  trend : list cell;
  seasonal : list cell;
  resid : list cell
}.

Record ARIMAModel : Type := mkARIMAModel {
  endog : Series;
  order : Z * Z * Z
}.

Record ARIMAResults : Type := mkARIMAResults {
  fitted : ARIMAModel;
  params : list float
}.

Inductive Figure : Type :=
| Axes (figsize : Z * Z) (title : option string)
       (lines : list (Series * option string)) (legend : bool)
| DecomposePlot (r : DecomposeResult) (size : option (Z * Z)).

Module plt.

(** [fig, ax = plt.subplots(figsize=...)] *)
Definition subplots (figsize : Z * Z) : Figure := Axes figsize None [] false.

(** [ax.plot(s, label=...)] *)
Definition plot (fig : Figure) (s : Series) (label : option string) : Figure :=
  match fig with
  | Axes sz t ls lg => Axes sz t (ls ++ [(s, label)]) lg
  | DecomposePlot _ _ => fig
  end.

(** [ax.set_title(t)] *)
Definition set_title (fig : Figure) (t : string) : Figure :=
  match fig with
  | Axes sz _ ls lg => Axes sz (Some t) ls lg
  | DecomposePlot _ _ => fig
  end.

(** [ax.legend()] *)
Definition legend (fig : Figure) : Figure :=
  match fig with
  | Axes sz t ls _ => Axes sz t ls true
  | DecomposePlot _ _ => fig
  end.

(** [fig.set_size_inches(w, h)] *)
Definition set_size_inches (fig : Figure) (size : Z * Z) : Figure :=
  match fig with
  | Axes _ t ls lg => Axes size t ls lg
  | DecomposePlot r _ => DecomposePlot r (Some size)
  end.

(** The labels of the plotted lines, in plotting order. *)
Definition labels (fig : Figure) : list (option string) :=
  match fig with
  | Axes _ _ ls _ => map snd ls
  | DecomposePlot _ _ => []
  end.

End plt.

(** ** What a run asks of the outside world *)

(** A button's [on_click].  The two callbacks of the script are both
    [lambda: go_to("home")]. *)
Inductive callback : Type :=
| cb_go_to (target : string).

(** An argument of [st.write]. *)
Inductive value : Type :=
| v_str (s : string)
| v_float (x : float)
| v_frame (df : DataFrame).

(** The log of a run: the Streamlit elements it rendered and the library
    routines it invoked, each with its arguments. *)
Inductive event : Type :=
| st_set_page_config (page_title layout : string)
| st_markdown (body : string)
| st_subheader (body : string)
| st_write (args : list value)
| st_error (body : string)
| st_warning (body : string)
| st_success (body : string)
| st_pyplot (fig : Figure)
| st_columns (n : nat)
| st_container
| st_button (label : string) (on_click : option callback)
| st_file_uploader (label : string)
| st_selectbox (label : string) (options : list string)
| st_slider (label : string) (min_value max_value default : Z)
| pd_read_csv (f : UploadedFile)
| pd_to_datetime (s : Series)
| pd_crosstab (a b : Series)
| sm_seasonal_decompose (s : Series) (model : string) (period : Z)
| sm_adfuller (s : Series)
| sm_ARIMA (s : Series) (order : Z * Z * Z)
| sm_fit (m : ARIMAModel)
| sm_forecast (r : ARIMAResults) (steps : Z)
| scipy_ttest_ind (a b : Series)
| scipy_chi2_contingency (t : DataFrame).

(** The state of the widgets when a run starts: the button whose click
    caused it (if any), the uploaded file, the positions of the select boxes
    and of the sliders. *)
Record Widgets : Type := mkWidgets {
  clicked : option string;
  uploaded : option UploadedFile;
  selected : string -> nat;
  slid : string -> option Z
}.

(** [page] is [st.session_state.page], [None] while the key is absent;
    [log] holds the events of the run, the most recent first. *)
Record world : Type := mkWorld {
  page : option string;
  log : list event
}.

(** ** The monad of the script *)

Definition M (A : Type) : Type := world -> res A * world.

Definition ret {A : Type} (a : A) : M A := fun w => (Ok a, w).

Definition bind {A B : Type} (m : M A) (f : A -> M B) : M B :=
  fun w =>
    match m w with
    | (Ok a, w') => f a w'
    | (Err e, w') => (Err e, w')
    end.

Definition raise {A : Type} (e : exn) : M A := fun w => (Err e, w).

Definition lift {A : Type} (r : res A) : M A := fun w => (r, w).

Definition emit (e : event) : M unit :=
  fun w => (Ok tt, mkWorld (page w) (e :: log w)).

(** [try: body  except Exception as e: handler e] *)
Definition try_except_Exception {A : Type} (body : M A) (handler : exn -> M A)
  : M A :=
  fun w =>
    match body w with
    | (Err e, w') => if is_Exception e then handler e w' else (Err e, w')
    | done => done
    end.

(** [try: body  except: handler] *)
Definition try_except {A : Type} (body : M A) (handler : M A) : M A :=
  fun w =>
    match body w with
    | (Err _, w') => handler w'
    | done => done
    end.

Declare Scope py_scope.
Delimit Scope py_scope with py.
Notation "x <- c1 ;; c2" := (bind c1 (fun x => c2))
  (at level 61, c1 at next level, right associativity) : py_scope.
Notation "c1 ;; c2" := (bind c1 (fun _ => c2))
  (at level 61, right associativity) : py_scope.
Open Scope py_scope.

(** [if c: body] with no [else]. *)
Definition when (c : bool) (body : M unit) : M unit :=
  if c then body else ret tt.

(** ** Streamlit *)

Module st.

Definition set_page_config (page_title layout : string) : M unit :=
  emit (st_set_page_config page_title layout).
Definition markdown (body : string) : M unit := emit (st_markdown body).
Definition subheader (body : string) : M unit := emit (st_subheader body).
Definition write (args : list value) : M unit := emit (st_write args).
Definition error (body : string) : M unit := emit (st_error body).
Definition warning (body : string) : M unit := emit (st_warning body).
Definition success (body : string) : M unit := emit (st_success body).
Definition pyplot (fig : Figure) : M unit := emit (st_pyplot fig).
Definition columns (n : nat) : M unit := emit (st_columns n).
Definition container : M unit := emit st_container.

(** [st.stop()] *)
Definition stop : M unit := raise StopException.

(** What [st.button(label)] returns: true in the run its click caused. *)
Definition pressed (w : Widgets) (label : string) : bool :=
  match clicked w with
  | Some l => l =? label
  | None => false
  end.

(** [st.button(label, on_click=...)] *)
Definition button (w : Widgets) (label : string) (on_click : option callback)
  : M bool :=
  emit (st_button label on_click) ;;
  ret (pressed w label).

(** [st.file_uploader(label, type=["csv"])] *)
Definition file_uploader (w : Widgets) (label : string)
  : M (option UploadedFile) :=
  emit (st_file_uploader label) ;;
  ret (uploaded w).

(** What [st.selectbox(label, options)] returns: the option at the chosen
    position, the first one when that position does not exist, [None]
    when there is no option at all. *)
Definition chosen (w : Widgets) (label : string) (options : list string)
  : option string :=
  match nth_error options (selected w label) with
  | Some o => Some o
  | None => hd_error options
  end.

(** [st.selectbox(label, options)] *)
Definition selectbox (w : Widgets) (label : string) (options : list string)
  : M (option string) :=
  emit (st_selectbox label options) ;;
  ret (chosen w label options).

(** What [st.slider(label, min_value, max_value, value)] returns: the
    position the user chose among those the widget offers, from [min_value]
    to [max_value]; [value] while the slider is untouched, and also when the
    state of the widget holds a position outside the range. *)
Definition position (w : Widgets) (label : string)
  (min_value max_value default : Z) : Z :=
  match slid w label with
  | Some v =>
      if ((min_value <=? v) && (v <=? max_value))%Z then v else default
  | None => default
  end.

(** [st.slider(label, min_value, max_value, value)] *)
Definition slider (w : Widgets) (label : string)
  (min_value max_value default : Z) : M Z :=
  emit (st_slider label min_value max_value default) ;;
  ret (position w label min_value max_value default).

(** [st.session_state.page = p] *)
Definition set_page (p : string) : M unit :=
  fun w => (Ok tt, mkWorld (Some p) (log w)).

(** ["page" not in st.session_state] *)
Definition page_absent : M bool :=
  fun w => (Ok (match page w with None => true | Some _ => false end), w).

(** [st.session_state.page] *)
Definition get_page : M string :=
  fun w =>
    match page w with
    | Some p => (Ok p, w)
    | None => (Err (Exception "AttributeError"
                      "st.session_state has no attribute 'page'"), w)
    end.

End st.

(** ** The statistics libraries, as the script sees them *)

Record AdfResult : Type := mkAdf {
  adf_statistic : float;
  adf_pvalue : float
}.

Record Chi2Result : Type := mkChi2 {
  chi2_statistic : float;
  chi2_pvalue : float;
  chi2_dof : Z;
  chi2_expected : DataFrame
}.

(** What each routine returns or raises on each argument.  [parse_datetime]
    is the conversion of one cell by [pd.to_datetime]; [lib_forecast r steps]
    is what [r.forecast(steps=steps)] raises or, when it returns, the
    prediction it makes for each step after the sample (the label and the
    value of the k-th step); [format_float] is the text an f-string gives a
    float. *)
Record Lib : Type := mkLib {
  lib_read_csv : UploadedFile -> res DataFrame;
  lib_parse_datetime : cell -> res cell;
  lib_crosstab : Series -> Series -> res DataFrame;
  lib_seasonal_decompose : Series -> string -> Z -> res DecomposeResult;
  lib_adfuller : Series -> res AdfResult;
  lib_ARIMA : Series -> Z * Z * Z -> res ARIMAModel;
  lib_fit : ARIMAModel -> res ARIMAResults;
  lib_forecast : ARIMAResults -> Z -> res (nat -> cell * cell);
  lib_ttest_ind : Series -> Series -> res (float * float);
  lib_chi2_contingency : DataFrame -> res Chi2Result;
  format_float : float -> string
}.

Module pd.

Definition read_csv (L : Lib) (f : UploadedFile) : M DataFrame :=
  emit (pd_read_csv f) ;; lift (lib_read_csv L f).

(** The cells of a column converted one after the other; the first one
    that does not convert raises, and nothing is returned. *)
Fixpoint parse_cells (L : Lib) (cs : list cell) : res (list cell) :=
  match cs with
  | [] => Ok []
  | c :: cs' =>
      match lib_parse_datetime L c with
      | Err e => Err e
      | Ok d =>
          match parse_cells L cs' with
          | Err e => Err e
          | Ok ds => Ok (d :: ds)
          end
      end
  end.

(** [pd.to_datetime(s)], with its default [errors="raise"]. *)
Definition to_datetime (L : Lib) (s : Series) : M Series :=
  emit (pd_to_datetime s) ;;
  lift (match parse_cells L (s_values s) with
        | Ok ds => Ok (mkSeries (s_name s) (s_index s) ds)
        | Err e => Err e
        end).

Definition crosstab (L : Lib) (a b : Series) : M DataFrame :=
  emit (pd_crosstab a b) ;; lift (lib_crosstab L a b).

End pd.

Module sm.

Definition seasonal_decompose (L : Lib) (s : Series) (model : string)
  (period : Z) : M DecomposeResult :=
  emit (sm_seasonal_decompose s model period) ;;
  lift (lib_seasonal_decompose L s model period).

Definition adfuller (L : Lib) (s : Series) : M AdfResult :=
  emit (sm_adfuller s) ;; lift (lib_adfuller L s).

Definition ARIMA (L : Lib) (s : Series) (order : Z * Z * Z) : M ARIMAModel :=
  emit (sm_ARIMA s order) ;; lift (lib_ARIMA L s order).

Definition fit (L : Lib) (m : ARIMAModel) : M ARIMAResults :=
  emit (sm_fit m) ;; lift (lib_fit L m).

(** The series a forecast returns.  statsmodels documents [steps] as the
    number of out-of-sample forecasts from the end of the sample: the
    series holds the predictions for the steps 1 to [steps], one value and
    one label per step. *)
Definition predictions (g : nat -> cell * cell) (steps : Z) : Series :=
  mkSeries (Some "predicted_mean")
    (map (fun k => fst (g k)) (seq 1 (Z.to_nat steps)))
    (map (fun k => snd (g k)) (seq 1 (Z.to_nat steps))).

(** [r.forecast(steps=steps)] *)
Definition forecast (L : Lib) (r : ARIMAResults) (steps : Z) : M Series :=
  emit (sm_forecast r steps) ;;
  g <- lift (lib_forecast L r steps) ;;
  ret (predictions g steps).

End sm.

Module stats.

Definition ttest_ind (L : Lib) (a b : Series) : M (float * float) :=
  emit (scipy_ttest_ind a b) ;; lift (lib_ttest_ind L a b).

Definition chi2_contingency (L : Lib) (t : DataFrame) : M Chi2Result :=
  emit (scipy_chi2_contingency t) ;; lift (lib_chi2_contingency L t).

End stats.

(** ** The script *)

(** The style sheet of lines 13-74. *)
Definition page_css : string := "
<style>

body {
    background-color: #f6f8fa;
}

/* Gradient Title */
.big-title {
    font-size: 60px;
    font-weight: 900;
    text-align: center;
    background: -webkit-linear-gradient(45deg, #0078ff, #00d4ff);
    -webkit-background-clip: text;
    -webkit-text-fill-color: transparent;
    margin-bottom: 10px;
}

.subtitle {
    text-align: center;
    font-size: 20px;
    color: #666;
    margin-bottom: 40px;
}

/* Centered Buttons */
.center-buttons {
    display: flex;
    justify-content: center;
    gap: 40px;
    margin-top: 20px;
}

/* Button Styling */
.stButton>button {
    background: linear-gradient(45deg, #0078ff, #00d4ff);
    color: white !important;
    border-radius: 10px;
    padding: 15px 25px;
    border: none;
    font-size: 18px !important;
    font-weight: bold;
    box-shadow: 0px 4px 12px rgba(0, 120, 255, 0.3);
    transition: 0.3s;
}

.stButton>button:hover {
    transform: scale(1.05);
    background: linear-gradient(45deg, #006be6, #00bde6);
}

/* Card Container */
.card {
    background: white;
    padding: 25px;
    border-radius: 15px;
    box-shadow: 0px 4px 14px rgba(0,0,0,0.08);
    margin-bottom: 30px;
}

</style>
".

Section App.

Variable L : Lib.

(** Lines 80-81. *)
Definition go_to (page : string) : M unit := st.set_page page.

(** Lines 84-101: the home page. *)
Definition home_page (w : Widgets) : M unit :=
  st.markdown "<h1 class='big-title'>TrendLab</h1>" ;;
  st.markdown "<p class='subtitle'>Explore Data. Discover Insights. Forecast the Future.</p>" ;;
  st.markdown "<div class='center-buttons'>" ;;
  st.columns 2 ;;
  b1 <- st.button w "📈 Time Series Analysis" None ;;
  when b1 (go_to "time_series") ;;
  b2 <- st.button w "📊 Hypothesis Testing" None ;;
  when b2 (go_to "hypothesis") ;;
  st.markdown "</div>".

(** Line 116: the test of the list comprehension. *)
Definition is_date_col (c : string) : bool := contains "date" (lower c).

(** Lines 112-126: the uploaded file is read and indexed by its date
    column.  [date_cols[0]] is evaluated once here; the script evaluates
    it three times, to the same name. *)
Definition ts_ingest (uploaded_file : UploadedFile) : M DataFrame :=
  st.container ;;
  st.markdown "<div class='card'>" ;;
  df <- pd.read_csv L uploaded_file ;;
  let date_cols := filter is_date_col (pandas.columns df) in
  when (length date_cols =? 0)%nat
    (st.error "No date column found!" ;; st.stop) ;;
  d0 <- lift (item date_cols 0) ;;
  col <- lift (pandas.getitem df (Some d0)) ;;
  parsed <- pd.to_datetime L col ;;
  let df := pandas.setitem df d0 datetime64 parsed in
  df <- lift (pandas.set_index df d0) ;;
  st.subheader "📄 Data Preview" ;;
  st.write [v_frame (pandas.head df)] ;;
  st.markdown "</div>" ;;
  ret df.

(** Lines 133-140: the line plot. *)
Definition ts_plot (df : DataFrame) (column : option string) : M unit :=
  st.markdown "<div class='card'>" ;;
  st.subheader "📉 Time Series Plot" ;;
  let fig := plt.subplots (12, 4)%Z in
  s <- lift (pandas.getitem df column) ;;
  let fig := plt.plot fig s None in
  let fig := plt.set_title fig ("Trend Over Time — " ++ str_opt column) in
  st.pyplot fig ;;
  st.markdown "</div>".

(** Lines 143-152: the decomposition, inside [try ... except Exception]. *)
Definition ts_decomposition (df : DataFrame) (column : option string)
  : M unit :=
  st.markdown "<div class='card'>" ;;
  st.subheader "🔍 Trend, Seasonality & Residual Decomposition" ;;
  try_except_Exception
    (s <- lift (pandas.getitem df column) ;;
     result <- sm.seasonal_decompose L s "additive" 12 ;;
     let fig := DecomposePlot result None in
     let fig := plt.set_size_inches fig (12, 8)%Z in
     st.pyplot fig)
    (fun e => st.warning ("Decomposition error: " ++ str e)) ;;
  st.markdown "</div>".

(** Lines 155-164: the stationarity test, outside any [try]. *)
Definition ts_adf (df : DataFrame) (column : option string) : M unit :=
  st.markdown "<div class='card'>" ;;
  st.subheader "📌 ADF Stationarity Test" ;;
  s <- lift (pandas.getitem df column) ;;
  adf <- sm.adfuller L s ;;
  st.write [v_str ("**ADF Statistic:** " ++ format_float L (adf_statistic adf))] ;;
  st.write [v_str ("**p-value:** " ++ format_float L (adf_pvalue adf))] ;;
  (if (adf_pvalue adf <? 0.05)%float
   then st.success "Data is Stationary"
   else st.warning "Data is Not Stationary") ;;
  st.markdown "</div>".

(** Lines 167-183: the forecast, inside [try ... except:]. *)
Definition ts_forecast (w : Widgets) (df : DataFrame)
  (column : option string) : M unit :=
  st.markdown "<div class='card'>" ;;
  st.subheader "🔮 Forecast (ARIMA)" ;;
  steps <- st.slider w "Forecast Steps:" 5 60 12 ;;
  try_except
    (s <- lift (pandas.getitem df column) ;;
     model <- sm.ARIMA L s (1, 1, 1)%Z ;;
     fit <- sm.fit L model ;;
     future <- sm.forecast L fit steps ;;
     let fig := plt.subplots (12, 4)%Z in
     s <- lift (pandas.getitem df column) ;;
     let fig := plt.plot fig s (Some "History") in
     let fig := plt.plot fig future (Some "Forecast") in
     let fig := plt.legend fig in
     st.pyplot fig)
    (st.warning "ARIMA failed. Try more data.") ;;
  st.markdown "</div>".

(** Lines 128-183: the analysis of the ingested table. *)
Definition ts_analysis (w : Widgets) (df : DataFrame) : M unit :=
  let num_cols := pandas.select_dtypes [float64; int64] df in
  column <- st.selectbox w "Select Numeric Column" num_cols ;;
  ts_plot df column ;;
  ts_decomposition df column ;;
  ts_adf df column ;;
  ts_forecast w df column.

(** Lines 104-183: the time-series page. *)
Definition time_series_page (w : Widgets) : M unit :=
  st.button w "⬅ Back" (Some (cb_go_to "home")) ;;
  st.markdown "<h1 class='big-title'>📈 Time Series Analysis</h1>" ;;
  uploaded_file <- st.file_uploader w "Upload CSV" ;;
  match uploaded_file with
  | Some f => df <- ts_ingest f ;; ts_analysis w df
  | None => ret tt
  end.

(** Lines 203-218: the t-test. *)
Definition t_test (w : Widgets) (df : DataFrame) : M unit :=
  let num_cols := pandas.select_dtypes [float64; int64] df in
  c1 <- st.selectbox w "Sample 1" num_cols ;;
  c2 <- st.selectbox w "Sample 2" num_cols ;;
  go <- st.button w "Run T-Test" None ;;
  when go
    (a <- lift (pandas.getitem df c1) ;;
     b <- lift (pandas.getitem df c2) ;;
     tp <- stats.ttest_ind L a b ;;
     let '(t, p) := tp in
     st.markdown "<div class='card'>" ;;
     st.subheader "📌 T-Test Result" ;;
     st.write [v_str "T-Statistic:"; v_float t] ;;
     st.write [v_str "p-value:"; v_float p] ;;
     (if (p <? 0.05)%float
      then st.success "Reject H₀ — Significant Difference"
      else st.warning "Fail to Reject H₀") ;;
     st.markdown "</div>").

(** Lines 220-240: the chi-square test. *)
Definition chi_square (w : Widgets) (df : DataFrame) : M unit :=
  let cat_cols := pandas.select_dtypes [object] df in
  if (length cat_cols <? 2)%nat
  then st.error "Need 2 categorical columns!"
  else
    c1 <- st.selectbox w "Category 1" cat_cols ;;
    c2 <- st.selectbox w "Category 2" cat_cols ;;
    go <- st.button w "Run Chi-Square" None ;;
    when go
      (a <- lift (pandas.getitem df c1) ;;
       b <- lift (pandas.getitem df c2) ;;
       contingency <- pd.crosstab L a b ;;
       r <- stats.chi2_contingency L contingency ;;
       st.markdown "<div class='card'>" ;;
       st.subheader "📌 Chi-Square Result" ;;
       st.write [v_str "Chi-Square Value:"; v_float (chi2_statistic r)] ;;
       st.write [v_str "p-value:"; v_float (chi2_pvalue r)] ;;
       (if (chi2_pvalue r <? 0.05)%float
        then st.success "Reject H₀ — Dependent Variables"
        else st.warning "Fail to Reject H₀ — Independent") ;;
       st.markdown "</div>").

(** Lines 186-240: the hypothesis-testing page. *)
Definition hypothesis_page (w : Widgets) : M unit :=
  st.button w "⬅ Back" (Some (cb_go_to "home")) ;;
  st.markdown "<h1 class='big-title'>📊 Hypothesis Testing</h1>" ;;
  uploaded_file <- st.file_uploader w "Upload CSV" ;;
  match uploaded_file with
  | Some f =>
      st.markdown "<div class='card'>" ;;
      df <- pd.read_csv L f ;;
      st.subheader "📄 Data Preview" ;;
      st.write [v_frame (pandas.head df)] ;;
      st.markdown "</div>" ;;
      test <- st.selectbox w "Select Test" ["T-Test"; "Chi-Square Test"] ;;
      if str_opt test =? "T-Test" then t_test w df else chi_square w df
  | None => ret tt
  end.

(** The whole file, top to bottom: one run of the script. *)
Definition script (w : Widgets) : M unit :=
  st.set_page_config "TrendLab" "wide" ;;
  st.markdown page_css ;;
  absent <- st.page_absent ;;
  when absent (st.set_page "home") ;;
  p <- st.get_page ;;
  if p =? "home" then home_page w
  else if p =? "time_series" then time_series_page w
  else if p =? "hypothesis" then hypothesis_page w
  else ret tt.

(** ** The session around the script *)

(** How the Streamlit runtime reports the end of a run: [st.stop()] ends
    it quietly, any other exception that reaches the runtime is shown by
    the runtime. *)
Inductive status : Type :=
| Completed
| Stopped
| Uncaught (e : exn).

Definition status_of (r : res unit) : status :=
  match r with
  | Ok _ => Completed
  | Err StopException => Stopped
  | Err e => Uncaught e
  end.

(** One run from the session value [p], with an empty log. *)
Definition run (w : Widgets) (p : option string) : res unit * world :=
  script w (mkWorld p []).

(** A session between two runs: the page field and what the last run
    rendered (the buttons of that rendering carry the callbacks). *)
Record App : Type := mkApp {
  session : option string;
  rendered : list event
}.

Definition first_load : App := mkApp None [].

(** The [on_click] registered for the button [label] in a rendering. *)
Fixpoint on_click_of (label : string) (evs : list event) : option callback :=
  match evs with
  | [] => None
  | st_button l (Some cb) :: evs' =>
      if l =? label then Some cb else on_click_of label evs'
  | _ :: evs' => on_click_of label evs'
  end.

Definition run_callback (cb : callback) : M unit :=
  match cb with
  | cb_go_to target => go_to target
  end.

(** A click on a button with a callback runs the callback first, then the
    script from the top. *)
Definition callbacks (w : Widgets) (a : App) : M unit :=
  match clicked w with
  | Some l =>
      match on_click_of l (rendered a) with
      | Some cb => run_callback cb
      | None => ret tt
      end
  | None => ret tt
  end.

Definition rerun (w : Widgets) (a : App) : App :=
  let w1 := snd (callbacks w a (mkWorld (session a) [])) in
  let w2 := snd (script w (mkWorld (page w1) [])) in
  mkApp (page w2) (log w2).

Inductive reachable : App -> Prop :=
| reach_first : reachable first_load
| reach_rerun : forall w a, reachable a -> reachable (rerun w a).

Definition known_page (p : string) : Prop :=
  p = "home" \/ p = "time_series" \/ p = "hypothesis".

End App.

(** ** The words of the specification *)

(** A name contains the substring [date], whatever the case of its
    letters. *)
Definition has_date_ci (c : string) : Prop :=
  exists pre mid post, c = (pre ++ mid ++ post)%string /\ lower mid = "date".

(** [c] is the first column of [df], in column order, whose name contains
    [date]. *)
Definition first_date_column (df : DataFrame) (c : string) : Prop :=
  exists l1 l2,
    pandas.columns df = l1 ++ c :: l2 /\
    (forall x, In x l1 -> ~ has_date_ci x) /\
    has_date_ci c.

(** The text-typed (categorical) columns of a table. *)
Definition text_columns (df : DataFrame) : list Column :=
  filter (fun c => match c_dtype c with object => true | _ => false end)
         (df_columns df).

(** The events that are a plot or a call of a statistics routine. *)
Definition is_analysis (e : event) : bool :=
  match e with
  | st_pyplot _ | pd_crosstab _ _ | sm_seasonal_decompose _ _ _
  | sm_adfuller _ | sm_ARIMA _ _ | sm_fit _ | sm_forecast _ _
  | scipy_ttest_ind _ _ | scipy_chi2_contingency _ => true
  | _ => false
  end.

(** The events that show a table. *)
Definition shows_table (e : event) : bool :=
  match e with
  | st_write _ => true
  | _ => false
  end.

(** ** Sample inputs *)

Module Sample.

Definition dates (n : nat) : list cell :=
  map (fun i => c_str "2024-01-01") (seq 0 n).

Definition counts (n : nat) : list cell :=
  map (fun i => c_int (Z.of_nat i)) (seq 0 n).

Definition range_index (n : nat) : list cell := counts n.

(** [OrderDate, Sales], thirty rows. *)
Definition monthly : DataFrame :=
  mkDataFrame None (range_index 30)
    [mkColumn "OrderDate" object (dates 30);
     mkColumn "Sales" int64 (counts 30)].

(** [OrderDate, Sales, ShipDate], three rows. *)
Definition short : DataFrame :=
  mkDataFrame None (range_index 3)
    [mkColumn "OrderDate" object (dates 3);
     mkColumn "Sales" float64 [c_float 0.0499; c_float 2; c_float 3];
     mkColumn "ShipDate" object (dates 3)].

(** [Date, Sales] with a missing value in [Sales]. *)
Definition gaps : DataFrame :=
  mkDataFrame None (range_index 3)
    [mkColumn "Date" object (dates 3);
     mkColumn "Sales" float64 [c_float 1; c_nan; c_float 3]].

(** [Day, Sales]: no date column. *)
Definition undated : DataFrame :=
  mkDataFrame None (range_index 2)
    [mkColumn "Day" object [c_str "Mon"; c_str "Tue"];
     mkColumn "Sales" int64 (counts 2)].

(** [when_DATE, Sales] with a cell that is no date. *)
Definition garbled : DataFrame :=
  mkDataFrame None (range_index 3)
    [mkColumn "when_DATE" object
       [c_str "2024-01-01"; c_str "soon"; c_str "2024-01-03"];
     mkColumn "Sales" int64 (counts 3)].

(** [Region, Score]: one text column. *)
Definition survey : DataFrame :=
  mkDataFrame None (range_index 2)
    [mkColumn "Region" object [c_str "N"; c_str "S"];
     mkColumn "Score" float64 [c_float 1; c_float 2];
     mkColumn "Other" float64 [c_float 2; c_float 5]].

(** [Region, Outcome]: two text columns. *)
Definition poll : DataFrame :=
  mkDataFrame None (range_index 2)
    [mkColumn "Region" object [c_str "N"; c_str "S"];
     mkColumn "Outcome" object [c_str "yes"; c_str "no"]].

Definition file (name : string) : UploadedFile := mkUploadedFile name "".

(** The [Sales] column of a sample, as the analysis sees it: indexed by
    the converted dates. *)
Definition sales (df : DataFrame) : Series :=
  mkSeries (Some "Sales")
    (map (fun _ => c_datetime 0) (df_index df))
    (match pandas.getitem df (Some "Sales") with
     | Ok s => s_values s
     | Err _ => []
     end).

Definition is_nan (c : cell) : bool :=
  match c with
  | c_nan => true
  | _ => false
  end.

(** A stand-in for the libraries, with fixed answers that send the samples
    down the different paths of the script; the answers are not those the
    real routines give on these tables.  Here a series shorter than two
    periods is not decomposed, a series with a missing value has no ADF
    statistic, and a model needs four observations to be fitted. *)
Definition lib : Lib :=
  mkLib
    (fun f =>
       if file_name f =? "monthly.csv" then Ok monthly
       else if file_name f =? "short.csv" then Ok short
       else if file_name f =? "gaps.csv" then Ok gaps
       else if file_name f =? "undated.csv" then Ok undated
       else if file_name f =? "garbled.csv" then Ok garbled
       else if file_name f =? "survey.csv" then Ok survey
       else if file_name f =? "poll.csv" then Ok poll
       else Err (Exception "EmptyDataError" "No columns to parse from file"))
    (fun c =>
       match c with
       | c_str s =>
           if prefix "20" s then Ok (c_datetime 0)
           else Err (Exception "DateParseError" "Unknown datetime string format")
       | c_datetime ns => Ok (c_datetime ns)
       | c_nan => Ok c_nan
       | _ => Err (Exception "TypeError" "not convertible to datetime")
       end)
    (fun a b => Ok (mkDataFrame (s_name a) [] []))
    (fun s model period =>
       if (Z.of_nat (length (s_values s)) <? 2 * period)%Z
       then Err (Exception "ValueError" "x must have 2 complete cycles")
       else Ok (mkDecomposeResult s (s_values s) (s_values s) (s_values s)))
    (fun s =>
       if existsb is_nan (s_values s)
       then Err (Exception "MissingDataError" "exog contains inf or nans")
       else Ok (mkAdf (-3)%float
                  (match s_values s with
                   | c_float x :: _ => x
                   | _ => 0.5%float
                   end)))
    (fun s o => Ok (mkARIMAModel s o))
    (fun m =>
       if (length (s_values (endog m)) <? 4)%nat
       then Err (Exception "ValueError" "too few observations")
       else Ok (mkARIMAResults m []))
    (fun r steps => Ok (fun k => (c_datetime (Z.of_nat k), c_float 0)))
    (fun a b => Ok (2%float, 0.0501%float))
    (fun t => Ok (mkChi2 4%float 0.05%float 1 t))
    (fun x => "x").

(** The widgets after an upload, every select box and slider untouched. *)
Definition widgets (name : string) : Widgets :=
  mkWidgets None (Some (file name)) (fun _ => 0%nat) (fun _ => None).

(** The same, with the second test chosen and one button pressed. *)
Definition widgets_pressed (name button : string) : Widgets :=
  mkWidgets (Some button) (Some (file name))
    (fun l => if l =? "Select Test" then 1%nat
              else if l =? "Category 2" then 1%nat
              else if l =? "Sample 2" then 1%nat else 0%nat)
    (fun l => Some 100%Z).

End Sample.

(** ** Predicates on runs *)

(** What a run has logged when it reaches one of the three analyses (lines
    128, 203 and 221), or ends before them. *)
Definition prelude_event (e : event) : Prop :=
  match e with
  | st_set_page_config _ _ | st_markdown _ | st_columns _ | st_container
  | st_file_uploader _ | pd_read_csv _ | pd_to_datetime _ | st_write _ => True
  | st_subheader s => s = "📄 Data Preview"
  | st_button _ cb => cb = None \/ cb = Some (cb_go_to "home")
  | st_error s => s = "No date column found!"
  | st_selectbox l _ => l = "Select Test"
  | _ => False
  end.

(** [m] only adds events that satisfy [Q] to the log. *)
Definition adds (Q : event -> Prop) {A : Type} (m : M A) : Prop :=
  forall w0, exists new, log (snd (m w0)) = new ++ log w0 /\ Forall Q new.

(** [m] leaves the page field as it is. *)
Definition keeps_page {A : Type} (m : M A) : Prop :=
  forall w0, page (snd (m w0)) = page w0.

(** The callbacks a rendering registers all go to the home page. *)
Definition button_goes_home (e : event) : Prop :=
  match e with
  | st_button _ (Some cb) => cb = cb_go_to "home"
  | _ => True
  end.

(** The arguments the script gives the statistics routines and the slider. *)
Definition fixed_arguments (w : Widgets) (e : event) : Prop :=
  match e with
  | sm_seasonal_decompose _ model period => model = "additive" /\ period = 12%Z
  | sm_ARIMA _ o => o = (1, 1, 1)%Z
  | sm_forecast _ steps => steps = st.position w "Forecast Steps:" 5 60 12
  | st_slider l lo hi d => l = "Forecast Steps:" /\ lo = 5%Z /\ hi = 60%Z /\ d = 12%Z
  | _ => True
  end.

(** What the analysis of an ingested table adds to the log: no reading, no
    date parsing, no input error. *)
Definition analysis_event (e : event) : Prop :=
  match e with
  | pd_read_csv _ | pd_to_datetime _ | st_error _ => False
  | _ => True
  end.

(** The section header [s]. *)
Definition is_subheader (s : string) (e : event) : bool :=
  match e with
  | st_subheader s' => s' =? s
  | _ => false
  end.

(** ** More predicates on runs *)

(** The only button with a callback is the back button. *)
Definition only_back_calls (e : event) : Prop :=
  match e with
  | st_button l (Some cb) => l = "⬅ Back" /\ cb = cb_go_to "home"
  | _ => True
  end.

(** Not a file being read. *)
Definition no_reading (e : event) : Prop :=
  match e with
  | pd_read_csv _ => False
  | _ => True
  end.

(** Not a step of a hypothesis test. *)
Definition no_testing (e : event) : Prop :=
  match e with
  | pd_crosstab _ _ | scipy_ttest_ind _ _ | scipy_chi2_contingency _ => False
  | _ => True
  end.

(** Neither a date conversion nor the complaint about a missing date
    column. *)
Definition no_date_handling (e : event) : Prop :=
  match e with
  | pd_to_datetime _ => False
  | st_error s => s <> "No date column found!"
  | _ => True
  end.

(** The select box of the numeric columns, when it is shown, offers
    [opts]. *)
Definition offers (opts : list string) (e : event) : Prop :=
  match e with
  | st_selectbox l o => l = "Select Numeric Column" -> o = opts
  | _ => True
  end.

(** A column of a numeric dtype, as line 129 selects them. *)
Definition is_numeric (c : Column) : bool :=
  existsb (dtype_eqb (c_dtype c)) [float64; int64].

Module MoreSamples.

(** [Date, Note]: a date column and no numeric column. *)
Definition notes : DataFrame :=
  mkDataFrame None (Sample.range_index 2)
    [mkColumn "Date" object (Sample.dates 2);
     mkColumn "Note" object [c_str "a"; c_str "b"]].

(** [OrderDate, Sales]: thirty months, one row a month. *)
Definition seasonal : DataFrame :=
  mkDataFrame None (Sample.range_index 30)
    [mkColumn "OrderDate" object
       [c_str "2022-01-01"; c_str "2022-02-01"; c_str "2022-03-01"; c_str
        "2022-04-01"; c_str "2022-05-01"; c_str "2022-06-01"; c_str
        "2022-07-01"; c_str "2022-08-01"; c_str "2022-09-01"; c_str
        "2022-10-01"; c_str "2022-11-01"; c_str "2022-12-01"; c_str
        "2023-01-01"; c_str "2023-02-01"; c_str "2023-03-01"; c_str
        "2023-04-01"; c_str "2023-05-01"; c_str "2023-06-01"; c_str
        "2023-07-01"; c_str "2023-08-01"; c_str "2023-09-01"; c_str
        "2023-10-01"; c_str "2023-11-01"; c_str "2023-12-01"; c_str
        "2024-01-01"; c_str "2024-02-01"; c_str "2024-03-01"; c_str
        "2024-04-01"; c_str "2024-05-01"; c_str "2024-06-01"];
     mkColumn "Sales" int64
       [c_int 100; c_int 109; c_int 119; c_int 125; c_int 137; c_int 145;
        c_int 147; c_int 146; c_int 139; c_int 138; c_int 133; c_int 136;
        c_int 140; c_int 144; c_int 154; c_int 160; c_int 172; c_int 185;
        c_int 182; c_int 181; c_int 174; c_int 173; c_int 173; c_int 171;
        c_int 175; c_int 179; c_int 189; c_int 200; c_int 207; c_int 220]].

(** [Region, Outcome]: two text columns, no row with both values. *)
Definition sparse : DataFrame :=
  mkDataFrame None (Sample.range_index 2)
    [mkColumn "Region" object [c_str "N"; c_nan];
     mkColumn "Outcome" object [c_nan; c_str "yes"]].

Definition digit (c : ascii) : Z := Z.of_nat (nat_of_ascii c) - 48.

(** The month of a date written [YYYY-MM-DD], counted from the year 0. *)
Definition month_stamp (s : string) : Z :=
  match s with
  | String y1 (String y2 (String y3 (String y4
      (String _ (String m1 (String m2 _)))))) =>
      12 * (1000 * digit y1 + 100 * digit y2 + 10 * digit y3 + digit y4)
      + 10 * digit m1 + digit m2
  | _ => 0
  end.

(** The row of a series has both values. *)
Definition complete (xy : cell * cell) : bool :=
  negb (Sample.is_nan (fst xy) || Sample.is_nan (snd xy)).

(** The texts of a list of cells, each once, in ascending order. *)
Fixpoint insert_label (s : string) (l : list string) : list string :=
  match l with
  | [] => [s]
  | x :: l' =>
      if s =? x then l
      else if String.ltb s x then s :: l
      else x :: insert_label s l'
  end.

Definition labels (cs : list cell) : list string :=
  fold_right
    (fun c l => match c with
                | c_str s => insert_label s l
                | _ => l
                end)
    [] cs.

(** The rows with the text [x] in the first place and [y] in the second. *)
Definition count_pairs (rows : list (cell * cell)) (x y : string) : Z :=
  Z.of_nat
    (length
       (filter (fun xy => match xy with
                          | (c_str u, c_str v) => (u =? x) && (v =? y)
                          | _ => false
                          end)
          rows)).

(** The contingency table of two text series: the rows with a missing
    value left out, one row for each text of the first, one column for
    each text of the second. *)
Definition contingency (a b : Series) : DataFrame :=
  let rows := filter complete (combine (s_values a) (s_values b)) in
  let xs := labels (map fst rows) in
  let ys := labels (map snd rows) in
  mkDataFrame (s_name a) (map c_str xs)
    (map (fun y =>
            mkColumn y int64 (map (fun x => c_int (count_pairs rows x y)) xs))
       ys).

(** The table [t] with 0.5 in every cell. *)
Definition halves (t : DataFrame) : DataFrame :=
  mkDataFrame (df_index_name t) (df_index t)
    (map (fun c =>
            mkColumn (c_name c) float64
              (map (fun _ => c_float 0.5) (c_values c)))
       (df_columns t)).

(** The k-th month after June 2024, with a flat prediction. *)
Definition next_months (k : nat) : cell * cell :=
  (c_datetime (24294 + Z.of_nat k), c_float 150).

(** A second stand-in, on top of [Sample.lib]: it also reads [notes.csv],
    [seasonal.csv] and [sparse.csv], fails to read [broken.csv], keeps the
    month of a date, forecasts the months after June 2024, gives a t-test
    on a missing value the answer (nan, nan), counts a contingency table
    as above, refuses an empty one and answers on any other as on the
    table of [poll.csv], one observation in each cell of a diagonal:
    statistic 0, p-value 1, one degree of freedom, 0.5 expected in every
    cell. *)
Definition lib : Lib :=
  mkLib
    (fun f =>
       if file_name f =? "notes.csv" then Ok notes
       else if file_name f =? "seasonal.csv" then Ok seasonal
       else if file_name f =? "sparse.csv" then Ok sparse
       else if file_name f =? "broken.csv"
            then Err (Exception "ParserError" "Error tokenizing data")
            else lib_read_csv Sample.lib f)
    (fun c =>
       match c with
       | c_str s =>
           if prefix "20" s then Ok (c_datetime (month_stamp s))
           else Err (Exception "DateParseError"
                       "Unknown datetime string format")
       | _ => lib_parse_datetime Sample.lib c
       end)
    (fun a b => Ok (contingency a b))
    (lib_seasonal_decompose Sample.lib)
    (lib_adfuller Sample.lib)
    (lib_ARIMA Sample.lib)
    (lib_fit Sample.lib)
    (fun r steps => Ok next_months)
    (fun a b =>
       if existsb Sample.is_nan (s_values a ++ s_values b)
       then Ok (nan, nan)
       else lib_ttest_ind Sample.lib a b)
    (fun t =>
       match df_columns t with
       | [] => Err (Exception "ValueError" "No data; observed has size 0.")
       | _ => Ok (mkChi2 0 1 1 (halves t))
       end)
    (format_float Sample.lib).

(** [Sample.lib], interrupted during every decomposition. *)
Definition interrupted : Lib :=
  mkLib
    (lib_read_csv Sample.lib)
    (lib_parse_datetime Sample.lib)
    (lib_crosstab Sample.lib)
    (fun _ _ _ => Err (BaseException "KeyboardInterrupt" ""))
    (lib_adfuller Sample.lib)
    (lib_ARIMA Sample.lib)
    (lib_fit Sample.lib)
    (lib_forecast Sample.lib)
    (lib_ttest_ind Sample.lib)
    (lib_chi2_contingency Sample.lib)
    (format_float Sample.lib).

(** The widgets after an upload and a click, every select box untouched. *)
Definition clicking (name button : string) : Widgets :=
  mkWidgets (Some button) (Some (Sample.file name)) (fun _ => 0%nat)
    (fun _ => None).

(** The widgets with nothing uploaded and nothing clicked. *)
Definition idle : Widgets :=
  mkWidgets None None (fun _ => 0%nat) (fun _ => None).

(** The widgets after a click, nothing uploaded. *)
Definition click (button : string) : Widgets :=
  mkWidgets (Some button) None (fun _ => 0%nat) (fun _ => None).

(** The widgets after an upload, the slider of the forecast moved to
    [v]. *)
Definition dragging (name : string) (v : Z) : Widgets :=
  mkWidgets None (Some (Sample.file name)) (fun _ => 0%nat)
    (fun l => if l =? "Forecast Steps:" then Some v else None).

(** The [Sales] column of [seasonal], indexed by the months. *)
Definition sales_by_month : Series :=
  mkSeries (Some "Sales")
    (map (fun c => match c with
                   | c_str s => c_datetime (month_stamp s)
                   | _ => c
                   end)
         (match pandas.getitem seasonal (Some "OrderDate") with
          | Ok s => s_values s
          | Err _ => []
          end))
    (match pandas.getitem seasonal (Some "Sales") with
     | Ok s => s_values s
     | Err _ => []
     end).

(** A column of a sample, as the hypothesis page sees it. *)
Definition column_of (df : DataFrame) (name : string) : Series :=
  match pandas.getitem df (Some name) with
  | Ok s => s
  | Err _ => mkSeries None [] []
  end.

End MoreSamples.

(** * Proofs *)

Unset Implicit Arguments.

(** ** Substrings and lower case *)

Section Strings.

Lemma prefix_iff (sub s : string) :
  prefix sub s = true <-> exists post, s = (sub ++ post)%string.
Proof.
  revert s. induction sub as [|a sub IH]; intros s; simpl.
  - split; [exists s; reflexivity | destruct s; reflexivity].
  - destruct s as [|b s]; simpl.
    + split; [discriminate | intros [post H]; discriminate].
    + destruct (ascii_dec a b) as [->|Hab].
      * rewrite IH. split; intros [post H]; exists post.
        -- now rewrite H.
        -- now injection H.
      * split; [discriminate | intros [post H]; injection H; congruence].
Qed.

Lemma contains_iff (sub s : string) :
  contains sub s = true <->
  exists pre post, s = (pre ++ sub ++ post)%string.
Proof.
  induction s as [|a s IH]; cbn [contains].
  - rewrite prefix_iff. split.
    + intros [post H]. exists "", post. exact H.
    + intros [pre [post H]].
      destruct pre; [exists post; exact H | discriminate].
  - rewrite orb_true_iff, IH, prefix_iff. split.
    + intros [[post H] | [pre [post H]]].
      * exists "", post. exact H.
      * exists (String a pre), post. simpl. now rewrite H.
    + intros [pre [post H]]. destruct pre as [|b pre]; simpl in H.
      * left. exists post. exact H.
      * right. injection H as _ H. exists pre, post. exact H.
Qed.

Lemma lower_app (a b : string) :
  lower (a ++ b) = (lower a ++ lower b)%string.
Proof. induction a as [|c a IH]; simpl; [reflexivity | now rewrite IH]. Qed.

Lemma lower_split (s x y : string) :
  lower s = (x ++ y)%string ->
  exists a b, s = (a ++ b)%string /\ lower a = x /\ lower b = y.
Proof.
  revert s. induction x as [|c x IH]; intros s H; simpl in H.
  - exists "", s. auto.
  - destruct s as [|d s]; [discriminate|]. simpl in H. injection H as Hc H.
    destruct (IH s H) as [a [b [-> [Ha Hb]]]].
    exists (String d a), b. simpl. rewrite Ha, Hc. auto.
Qed.

(** The test of line 116 is the case-insensitive search of the
    specification. *)
Lemma is_date_col_iff (c : string) : is_date_col c = true <-> has_date_ci c.
Proof.
  unfold is_date_col, has_date_ci. rewrite contains_iff. split.
  - intros [pre [post H]].
    destruct (lower_split _ _ _ H) as [a [b [-> [Ha Hb]]]].
    destruct (lower_split _ _ _ Hb) as [m [q [-> [Hm Hq]]]].
    exists a, m, q. auto.
  - intros [pre [mid [post [-> H]]]].
    exists (lower pre), (lower post). now rewrite !lower_app, H.
Qed.

End Strings.

(** ** Tables *)

Section Tables.

Lemma filter_no_date (l : list string) :
  (forall x, In x l -> ~ has_date_ci x) -> filter is_date_col l = [].
Proof.
  induction l as [|x l IH]; intros H; simpl; [reflexivity|].
  destruct (is_date_col x) eqn:E.
  - apply is_date_col_iff in E. destruct (H x); simpl; auto.
  - apply IH. intros y Hy. apply H. simpl; auto.
Qed.

Lemma filter_first_date (df : DataFrame) (c : string) :
  first_date_column df c ->
  exists tl, filter is_date_col (pandas.columns df) = c :: tl.
Proof.
  intros [l1 [l2 [E [H1 Hc]]]]. rewrite E, filter_app, (filter_no_date _ H1).
  simpl. apply is_date_col_iff in Hc. rewrite Hc. eauto.
Qed.

Lemma find_named (cols : list Column) (c : string) :
  In c (map c_name cols) ->
  exists col, find (fun x => c_name x =? c) cols = Some col /\ c_name col = c.
Proof.
  induction cols as [|x cols IH]; simpl; [tauto|].
  intros H. destruct (c_name x =? c) eqn:E.
  - exists x. split; [reflexivity | now apply String.eqb_eq].
  - destruct H as [H|H]; [|auto].
    subst. now rewrite String.eqb_refl in E.
Qed.

Lemma getitem_first_date (df : DataFrame) (c : string) :
  first_date_column df c ->
  exists col, pandas.getitem df (Some c) = Ok col /\ s_name col = Some c.
Proof.
  intros [l1 [l2 [E _]]]. unfold pandas.getitem.
  destruct (find_named (df_columns df) c) as [x [Hx _]].
  - fold (pandas.columns df). rewrite E. apply in_or_app. simpl; auto.
  - rewrite Hx. eauto.
Qed.

Lemma find_setitem (cols : list Column) (c : string) (dt : dtype)
  (vs : list cell) (col : Column) :
  find (fun x => c_name x =? c) cols = Some col ->
  find (fun x => c_name x =? c)
    (map (fun x => if c_name x =? c then mkColumn c dt vs else x) cols)
  = Some (mkColumn c dt vs).
Proof.
  induction cols as [|x cols IH]; simpl; [discriminate|].
  destruct (c_name x =? c) eqn:E; simpl.
  - now rewrite String.eqb_refl.
  - rewrite E. exact IH.
Qed.

(** Once [df[c]] exists, [df.set_index(c)] after [df[c] = s] succeeds, and
    the new index is [s]. *)
Lemma set_index_setitem (df : DataFrame) (c : string) (col s : Series) :
  pandas.getitem df (Some c) = Ok col ->
  exists df',
    pandas.set_index (pandas.setitem df c datetime64 s) c = Ok df' /\
    df_index_name df' = Some c /\ df_index df' = s_values s.
Proof.
  unfold pandas.getitem, pandas.set_index, pandas.setitem. simpl.
  destruct (find _ (df_columns df)) as [x|] eqn:E; [|discriminate].
  intros _. rewrite (find_setitem _ _ _ _ _ E). eauto.
Qed.

Lemma select_object_length (df : DataFrame) :
  length (pandas.select_dtypes [object] df) = length (text_columns df).
Proof.
  unfold pandas.select_dtypes, text_columns. rewrite length_map.
  f_equal. apply filter_ext. intros x. destruct (c_dtype x); reflexivity.
Qed.

(** One cell that does not convert is enough for [pd.to_datetime] to
    raise. *)
Lemma parse_cells_fails (L : Lib) (cs : list cell) (x : cell) (e0 : exn) :
  In x cs -> lib_parse_datetime L x = Err e0 ->
  exists e y, pd.parse_cells L cs = Err e /\ In y cs /\
              lib_parse_datetime L y = Err e.
Proof.
  induction cs as [|c cs IH]; simpl; [tauto|]. intros Hin Hx.
  destruct (lib_parse_datetime L c) as [d|e] eqn:E.
  - destruct Hin as [->|Hin]; [congruence|].
    destruct (IH Hin Hx) as [e [y [He [Hy Hp]]]]. rewrite He. eauto 6.
  - eauto 6.
Qed.

Lemma position_in_range (w : Widgets) (l : string) :
  (5 <= st.position w l 5 60 12 <= 60)%Z.
Proof.
  unfold st.position. destruct (slid w l) as [v|]; [|lia].
  destruct ((5 <=? v) && (v <=? 60))%Z eqn:E; [|lia].
  apply andb_true_iff in E. destruct E as [E1 E2].
  apply Z.leb_le in E1. apply Z.leb_le in E2. lia.
Qed.

Lemma position_chosen (w : Widgets) (l : string) (lo hi d v : Z) :
  slid w l = Some v -> (lo <= v <= hi)%Z -> st.position w l lo hi d = v.
Proof.
  intros Hs [H1 H2]. unfold st.position. rewrite Hs.
  apply Z.leb_le in H1. apply Z.leb_le in H2. now rewrite H1, H2.
Qed.

Lemma position_reset (w : Widgets) (l : string) (lo hi d v : Z) :
  slid w l = Some v -> (v < lo \/ hi < v)%Z -> st.position w l lo hi d = d.
Proof.
  intros Hs Hv. unfold st.position. rewrite Hs.
  destruct (lo <=? v)%Z eqn:E1; [|reflexivity].
  destruct (v <=? hi)%Z eqn:E2; [|reflexivity].
  apply Z.leb_le in E1. apply Z.leb_le in E2. lia.
Qed.

Lemma predictions_length (g : nat -> cell * cell) (steps : Z) :
  length (s_index (sm.predictions g steps)) = Z.to_nat steps /\
  length (s_values (sm.predictions g steps)) = Z.to_nat steps.
Proof.
  unfold sm.predictions. cbn [s_index s_values].
  now rewrite !length_map, !length_seq.
Qed.

End Tables.

(** ** The log only grows, the page field rarely changes *)

Section Adds.

Variable Q : event -> Prop.

Lemma adds_ret {A : Type} (a : A) : adds Q (ret a).
Proof. intros w0. exists []. split; [reflexivity | constructor]. Qed.

Lemma adds_raise {A : Type} (e : exn) : adds Q (@raise A e).
Proof. intros w0. exists []. split; [reflexivity | constructor]. Qed.

Lemma adds_lift {A : Type} (r : res A) : adds Q (lift r).
Proof. intros w0. exists []. split; [reflexivity | constructor]. Qed.

Lemma adds_emit (e : event) : Q e -> adds Q (emit e).
Proof.
  intros He w0. exists [e]. split; [reflexivity|].
  repeat constructor; exact He.
Qed.

Lemma adds_bind {A B : Type} (m : M A) (f : A -> M B) :
  adds Q m -> (forall a, adds Q (f a)) -> adds Q (bind m f).
Proof.
  intros Hm Hf w0. unfold bind. destruct (Hm w0) as [n1 [E1 F1]].
  destruct (m w0) as [[a|e] w1]; simpl in *.
  - destruct (Hf a w1) as [n2 [E2 F2]]. exists (n2 ++ n1). split.
    + now rewrite E2, E1, app_assoc.
    + apply Forall_app. split; assumption.
  - exists n1. split; assumption.
Qed.

Lemma adds_bind_assoc {A B C : Type} (m : M A) (f : A -> M B)
  (g : B -> M C) :
  adds Q (bind m (fun x => bind (f x) g)) -> adds Q (bind (bind m f) g).
Proof.
  intros H w0. specialize (H w0). unfold bind in *.
  destruct (m w0) as [[a|e] w1]; exact H.
Qed.

Lemma adds_bind_ret {A B : Type} (a : A) (f : A -> M B) :
  adds Q (f a) -> adds Q (bind (ret a) f).
Proof. intros H w0. exact (H w0). Qed.

Lemma adds_try_except_Exception {A : Type} (m : M A) (h : exn -> M A) :
  adds Q m -> (forall e, adds Q (h e)) -> adds Q (try_except_Exception m h).
Proof.
  intros Hm Hh w0. unfold try_except_Exception.
  destruct (Hm w0) as [n1 [E1 F1]].
  destruct (m w0) as [[a|e] w1]; simpl in *.
  - exists n1. split; assumption.
  - destruct (is_Exception e).
    + destruct (Hh e w1) as [n2 [E2 F2]]. exists (n2 ++ n1). split.
      * now rewrite E2, E1, app_assoc.
      * apply Forall_app. split; assumption.
    + exists n1. split; assumption.
Qed.

Lemma adds_try_except {A : Type} (m h : M A) :
  adds Q m -> adds Q h -> adds Q (try_except m h).
Proof.
  intros Hm Hh w0. unfold try_except. destruct (Hm w0) as [n1 [E1 F1]].
  destruct (m w0) as [[a|e] w1]; simpl in *.
  - exists n1. split; assumption.
  - destruct (Hh w1) as [n2 [E2 F2]]. exists (n2 ++ n1). split.
    + now rewrite E2, E1, app_assoc.
    + apply Forall_app. split; assumption.
Qed.

Lemma adds_when (c : bool) (m : M unit) : adds Q m -> adds Q (when c m).
Proof. destruct c; [trivial | intros _; apply adds_ret]. Qed.

Lemma adds_set_page (p : string) : adds Q (st.set_page p).
Proof. intros w0. exists []. split; [reflexivity | constructor]. Qed.

Lemma adds_page_absent : adds Q st.page_absent.
Proof. intros w0. exists []. split; [reflexivity | constructor]. Qed.

Lemma adds_get_page : adds Q st.get_page.
Proof.
  intros w0. exists []. split; [|constructor].
  unfold st.get_page. destruct (page w0); reflexivity.
Qed.

End Adds.

Section KeepsPage.

Lemma keeps_ret {A : Type} (a : A) : keeps_page (ret a).
Proof. intros w0. reflexivity. Qed.

Lemma keeps_raise {A : Type} (e : exn) : keeps_page (@raise A e).
Proof. intros w0. reflexivity. Qed.

Lemma keeps_lift {A : Type} (r : res A) : keeps_page (lift r).
Proof. intros w0. reflexivity. Qed.

Lemma keeps_emit (e : event) : keeps_page (emit e).
Proof. intros w0. reflexivity. Qed.

Lemma keeps_bind {A B : Type} (m : M A) (f : A -> M B) :
  keeps_page m -> (forall a, keeps_page (f a)) -> keeps_page (bind m f).
Proof.
  intros Hm Hf w0. unfold bind. specialize (Hm w0).
  destruct (m w0) as [[a|e] w1]; simpl in *.
  - now rewrite Hf.
  - exact Hm.
Qed.

Lemma keeps_try_except_Exception {A : Type} (m : M A) (h : exn -> M A) :
  keeps_page m -> (forall e, keeps_page (h e)) ->
  keeps_page (try_except_Exception m h).
Proof.
  intros Hm Hh w0. unfold try_except_Exception. specialize (Hm w0).
  destruct (m w0) as [[a|e] w1]; simpl in *; [exact Hm|].
  destruct (is_Exception e); [now rewrite Hh | exact Hm].
Qed.

Lemma keeps_try_except {A : Type} (m h : M A) :
  keeps_page m -> keeps_page h -> keeps_page (try_except m h).
Proof.
  intros Hm Hh w0. unfold try_except. specialize (Hm w0).
  destruct (m w0) as [[a|e] w1]; simpl in *; [exact Hm | now rewrite Hh].
Qed.

Lemma keeps_when (c : bool) (m : M unit) :
  keeps_page m -> keeps_page (when c m).
Proof. destruct c; [trivial | intros _; apply keeps_ret]. Qed.

End KeepsPage.

(** One step of either calculus, chosen by the shape of the program. *)
Ltac adds_step :=
  lazymatch goal with
  | |- adds _ (bind (bind _ _) _) => apply adds_bind_assoc
  | |- adds _ (bind (ret _) _) => apply adds_bind_ret
  | |- adds _ (bind _ _) => apply adds_bind; [|intros ?]
  | |- adds _ (ret _) => apply adds_ret
  | |- adds _ (raise _) => apply adds_raise
  | |- adds _ (lift _) => apply adds_lift
  | |- adds _ (emit _) => apply adds_emit
  | |- adds _ (st.set_page _) => apply adds_set_page
  | |- adds _ st.page_absent => apply adds_page_absent
  | |- adds _ st.get_page => apply adds_get_page
  | |- adds _ (when _ _) => apply adds_when
  | |- adds _ (try_except_Exception _ _) =>
      apply adds_try_except_Exception; [|intros ?]
  | |- adds _ (try_except _ _) => apply adds_try_except
  | |- adds _ (if ?c then _ else _) => destruct c
  | |- adds _ (match ?c with _ => _ end) => destruct c
  end.

Ltac keeps_step :=
  lazymatch goal with
  | |- keeps_page (bind _ _) => apply keeps_bind; [|intros ?]
  | |- keeps_page (ret _) => apply keeps_ret
  | |- keeps_page (raise _) => apply keeps_raise
  | |- keeps_page (lift _) => apply keeps_lift
  | |- keeps_page (emit _) => apply keeps_emit
  | |- keeps_page (when _ _) => apply keeps_when
  | |- keeps_page (try_except_Exception _ _) =>
      apply keeps_try_except_Exception; [|intros ?]
  | |- keeps_page (try_except _ _) => apply keeps_try_except
  | |- keeps_page (if ?c then _ else _) => destruct c
  | |- keeps_page (match ?c with _ => _ end) => destruct c
  end.

Ltac unfold_calls :=
  unfold st.set_page_config, st.markdown, st.subheader, st.write, st.error,
    st.warning, st.success, st.pyplot, st.columns, st.container, st.stop,
    st.button, st.file_uploader, st.selectbox, st.slider,
    pd.read_csv, pd.to_datetime, pd.crosstab, sm.seasonal_decompose,
    sm.adfuller, sm.ARIMA, sm.fit, sm.forecast, stats.ttest_ind,
    stats.chi2_contingency, go_to.

Ltac unfold_pages :=
  unfold script, home_page, time_series_page, hypothesis_page, ts_ingest,
    ts_analysis, ts_plot, ts_decomposition, ts_adf, ts_forecast, t_test,
    chi_square.

Section Safety.

Variable L : Lib.
Variable w : Widgets.

(** Every callback the script registers goes to the home page. *)
Lemma script_buttons : adds button_goes_home (script L w).
Proof.
  unfold_pages; unfold_calls. repeat adds_step.
  all: first [exact I | reflexivity].
Qed.

(** The arguments of the decomposition, of the model and of the forecast
    are the same in every run. *)
Lemma script_arguments : adds (fixed_arguments w) (script L w).
Proof.
  unfold_pages; unfold_calls. repeat adds_step.
  all: cbv [fixed_arguments]; auto.
Qed.

Lemma ts_analysis_adds (df : DataFrame) :
  adds analysis_event (ts_analysis L w df).
Proof.
  unfold_pages; unfold_calls. repeat adds_step.
  all: exact I.
Qed.

Lemma time_series_page_keeps_page : keeps_page (time_series_page L w).
Proof. unfold_pages; unfold_calls. repeat keeps_step. Qed.

Lemma hypothesis_page_keeps_page : keeps_page (hypothesis_page L w).
Proof. unfold_pages; unfold_calls. repeat keeps_step. Qed.

(** What a run logs, from an empty log. *)
Lemma run_log (Q : event -> Prop) (p : option string) :
  adds Q (script L w) -> Forall Q (log (snd (run L w p))).
Proof.
  intros H. destruct (H (mkWorld p [])) as [new [E F]].
  unfold run. rewrite E, app_nil_r. exact F.
Qed.

End Safety.

(** ** Running the script by hand *)

(** The monad and the library calls unfolded, the tables and the widgets
    left as they are. *)
Ltac step_in H :=
  cbv beta iota zeta delta
      [bind ret lift emit raise when fst snd page log go_to
       st.set_page_config st.markdown st.subheader st.write st.error
       st.warning st.success st.pyplot st.columns st.container st.stop
       st.button st.file_uploader st.selectbox st.slider st.set_page
       st.page_absent st.get_page
       pd.read_csv pd.to_datetime pd.crosstab sm.seasonal_decompose
       sm.adfuller sm.ARIMA sm.fit sm.forecast stats.ttest_ind
       stats.chi2_contingency try_except try_except_Exception] in H.

(** A case split on the first test the run depends on. *)
Ltac split_in H :=
  match type of H with
  | context [match ?x with _ => _ end] =>
      lazymatch x with
      | context [match _ with _ => _ end] => fail
      | _ => destruct x eqn:?
      end
  end.

(** Every path of the program in [H]. *)
Ltac exec_in H := repeat (step_in H; split_in H); step_in H.

Ltac unfold_analysis H :=
  unfold ts_analysis, ts_plot, ts_decomposition, ts_adf, ts_forecast, t_test,
    chi_square in H.

Ltac prelude_log :=
  cbv [log]; repeat (apply Forall_cons; [cbv [prelude_event]; auto|]);
  try apply Forall_nil.

(** The membership of an event in a log written out, one head at a time. *)
Ltac in_log H :=
  repeat (destruct H as [H|H]; [try discriminate H|]);
  try (lazymatch type of H with In _ [] => destruct H end).

(** An event is in a log written out. *)
Ltac find_in_log := cbv [log]; repeat (first [left; reflexivity | right]).

Section Runs.

Variable L : Lib.
Variable w : Widgets.

Lemma run_time_series :
  run L w (Some "time_series") =
  time_series_page L w
    (mkWorld (Some "time_series")
       [st_markdown page_css; st_set_page_config "TrendLab" "wide"]).
Proof. reflexivity. Qed.

Lemma run_hypothesis :
  run L w (Some "hypothesis") =
  hypothesis_page L w
    (mkWorld (Some "hypothesis")
       [st_markdown page_css; st_set_page_config "TrendLab" "wide"]).
Proof. reflexivity. Qed.

Lemma run_home (p : option string) :
  p = None \/ p = Some "home" ->
  run L w p =
  home_page w
    (mkWorld (Some "home")
       [st_markdown page_css; st_set_page_config "TrendLab" "wide"]).
Proof. intros [-> | ->]; reflexivity. Qed.

(** A run ends before any analysis, or it is the prelude followed by one
    of the three analyses. *)
Lemma run_cases (p : option string) (r : res unit) (w' : world) :
  run L w p = (r, w') ->
  Forall prelude_event (log w') \/
  exists df w0,
    Forall prelude_event (log w0) /\
    (ts_analysis L w df w0 = (r, w') \/
     t_test L w df w0 = (r, w') \/
     chi_square L w df w0 = (r, w')).
Proof.
  unfold run, script, home_page, time_series_page, hypothesis_page,
    ts_ingest.
  intros H. exec_in H.
  all: try (injection H as <- <-; left; prelude_log).
  all: right; eexists; eexists; (split; [|eauto]); prelude_log.
Qed.

(** The same, with the table of the time-series analysis in the
    preview. *)
Lemma run_cases_preview (p : option string) (r : res unit) (w' : world) :
  run L w p = (r, w') ->
  Forall prelude_event (log w') \/
  exists df w0,
    Forall prelude_event (log w0) /\
    ((In (st_write [v_frame (pandas.head df)]) (log w0) /\
      ts_analysis L w df w0 = (r, w')) \/
     t_test L w df w0 = (r, w') \/
     chi_square L w df w0 = (r, w')).
Proof.
  unfold run, script, home_page, time_series_page, hypothesis_page,
    ts_ingest.
  intros H. exec_in H.
  all: try (injection H as <- <-; left; prelude_log).
  all: right; eexists; eexists;
    (split; [|first [left; (split; [|exact H]); find_in_log
                    | right; left; exact H
                    | right; right; exact H]]);
    prelude_log.
Qed.

Lemma prelude_In (l : list event) (e : event) :
  Forall prelude_event l -> In e l -> prelude_event e.
Proof. intros F I. rewrite Forall_forall in F. auto. Qed.

Lemma not_in_log (f : event -> bool) (e : event) (l : list event) :
  existsb f l = false -> f e = true -> ~ In e l.
Proof.
  intros H He Hin. assert (X : existsb f l = true).
  { apply existsb_exists. eauto. }
  congruence.
Qed.

End Runs.

(** [H] puts in the prelude an event that cannot be there. *)
Ltac not_prelude F H :=
  exfalso; generalize (prelude_In _ _ F H); cbv [prelude_event];
  first [ exact (fun x => x) | discriminate | intros [X|X]; discriminate ].

(** ** The claims *)

Section Claims.

Variable L : Lib.

(** C2.  When no column name of the uploaded table contains [date] in any
    case, the time-series page shows the error [No date column found!],
    which is the last thing the run does: it ends there by [st.stop()],
    which the runtime takes as a normal end, and it has made no plot and
    called neither the decomposition, nor the ADF test, nor the
    forecast. *)
Theorem missing_date_column_stops_the_run (w : Widgets) (f : UploadedFile)
  (df : DataFrame) :
  uploaded w = Some f ->
  lib_read_csv L f = Ok df ->
  (forall c, In c (pandas.columns df) -> ~ has_date_ci c) ->
  status_of (fst (run L w (Some "time_series"))) = Stopped /\
  (exists pre, log (snd (run L w (Some "time_series")))
               = st_error "No date column found!" :: pre) /\
  (forall e, In e (log (snd (run L w (Some "time_series")))) ->
             is_analysis e = false) /\
  page (snd (run L w (Some "time_series"))) = Some "time_series".
Proof.
  intros Hup Hread Hnone.
  destruct (run L w (Some "time_series")) as [r w'] eqn:H.
  rewrite run_time_series in H. unfold time_series_page, ts_ingest in H.
  step_in H. rewrite Hup in H. step_in H. rewrite Hread in H.
  rewrite (filter_no_date _ Hnone) in H. cbn [length Nat.eqb] in H.
  step_in H. injection H as <- <-. cbv [fst snd log page].
  split; [reflexivity|]. split; [eexists; reflexivity|].
  split; [|reflexivity].
  intros e He. in_log He; subst e; reflexivity.
Qed.

End Claims.

Section Claims2.

Variable L : Lib.

(** C3.  In the chi-square mode of the hypothesis page, a table with fewer
    than two text-typed columns gets the error
    [Need 2 categorical columns!]: the run ends normally right after it,
    having built no contingency table and run no test. *)
Theorem chi_square_needs_two_text_columns (w : Widgets) (f : UploadedFile)
  (df : DataFrame) :
  uploaded w = Some f ->
  lib_read_csv L f = Ok df ->
  st.chosen w "Select Test" ["T-Test"; "Chi-Square Test"]
    = Some "Chi-Square Test" ->
  (length (text_columns df) < 2)%nat ->
  fst (run L w (Some "hypothesis")) = Ok tt /\
  (exists pre, log (snd (run L w (Some "hypothesis")))
               = st_error "Need 2 categorical columns!" :: pre) /\
  (forall e, In e (log (snd (run L w (Some "hypothesis")))) ->
             is_analysis e = false).
Proof.
  intros Hup Hread Hmode Hfew.
  destruct (run L w (Some "hypothesis")) as [r w'] eqn:H.
  rewrite run_hypothesis in H. unfold hypothesis_page, chi_square in H.
  step_in H. rewrite Hup in H. step_in H. rewrite Hread in H.
  step_in H. rewrite Hmode in H.
  change (str_opt (Some "Chi-Square Test") =? "T-Test") with false in H.
  rewrite select_object_length in H.
  apply Nat.ltb_lt in Hfew. rewrite Hfew in H.
  step_in H. injection H as <- <-. cbv [fst snd log].
  split; [reflexivity|]. split; [eexists; reflexivity|].
  intros e He. in_log He; subst e; reflexivity.
Qed.

(** C4.  When the uploaded table has a column whose name contains [date],
    the first such column [c], in column order, is the one the time-series
    page converts and makes the index, however many such columns there
    are: [pd.to_datetime] is called on [df[c]] and on nothing else; if
    that conversion raises, the run ends with the exception (no later
    column is tried); if it succeeds, the table shown in the preview is
    indexed by the converted column, under the name [c]. *)
Theorem first_date_column_is_the_index (w : Widgets) (f : UploadedFile)
  (df : DataFrame) (c : string) :
  uploaded w = Some f ->
  lib_read_csv L f = Ok df ->
  first_date_column df c ->
  exists col,
    pandas.getitem df (Some c) = Ok col /\
    s_name col = Some c /\
    In (pd_to_datetime col) (log (snd (run L w (Some "time_series")))) /\
    (forall s, In (pd_to_datetime s)
                  (log (snd (run L w (Some "time_series")))) -> s = col) /\
    (forall e, pd.parse_cells L (s_values col) = Err e ->
               fst (run L w (Some "time_series")) = Err e) /\
    (forall ds, pd.parse_cells L (s_values col) = Ok ds ->
       exists df',
         In (st_write [v_frame (pandas.head df')])
            (log (snd (run L w (Some "time_series")))) /\
         df_index_name df' = Some c /\ df_index df' = ds).
Proof.
  intros Hup Hread Hfirst.
  destruct (getitem_first_date _ _ Hfirst) as [col [Hcol Hname]].
  destruct (filter_first_date _ _ Hfirst) as [tl Htl].
  exists col. split; [exact Hcol|]. split; [exact Hname|].
  destruct (run L w (Some "time_series")) as [r w'] eqn:H.
  rewrite run_time_series in H. unfold time_series_page, ts_ingest in H.
  step_in H. rewrite Hup in H. step_in H. rewrite Hread in H.
  rewrite Htl in H. cbn [length Nat.eqb item nth_error] in H.
  step_in H. rewrite Hcol in H. step_in H.
  destruct (pd.parse_cells L (s_values col)) as [ds|e] eqn:Hparse.
  - destruct (set_index_setitem df c col
                (mkSeries (s_name col) (s_index col) ds) Hcol)
      as [df' [Hset [Hn Hi]]].
    rewrite Hset in H. step_in H.
    match type of H with
    | ts_analysis L w df' ?w0 = _ =>
        destruct (ts_analysis_adds L w df' w0) as [new [E F]]
    end.
    rewrite H in E. cbv [fst snd log] in E |- *. rewrite E.
    split; [apply in_or_app; right; find_in_log|].
    split; [|split; [discriminate|]].
    + intros s Hs. apply in_app_or in Hs. destruct Hs as [Hs|Hs].
      * rewrite Forall_forall in F. destruct (F _ Hs).
      * in_log Hs. now injection Hs.
    + intros ds' Hds. injection Hds as <-. exists df'.
      split; [apply in_or_app; right; find_in_log|]. auto.
  - step_in H. injection H as <- <-. cbv [fst snd log].
    split; [find_in_log|]. split; [|split; [congruence | discriminate]].
    intros s Hs. in_log Hs. now injection Hs.
Qed.

(** C8.  When one value of the selected date column does not convert to a
    date, the run ends with the exception of a value that does not
    convert, raised by [pd.to_datetime]: that call is the last thing the
    run does, and the run has shown no table, made no plot and called no
    statistics routine. *)
Theorem unparsable_date_fails_the_ingestion (w : Widgets)
  (f : UploadedFile) (df : DataFrame) (c : string) (col : Series) (x : cell)
  (e0 : exn) :
  uploaded w = Some f ->
  lib_read_csv L f = Ok df ->
  first_date_column df c ->
  pandas.getitem df (Some c) = Ok col ->
  In x (s_values col) ->
  lib_parse_datetime L x = Err e0 ->
  (exists e y, fst (run L w (Some "time_series")) = Err e /\
               In y (s_values col) /\ lib_parse_datetime L y = Err e) /\
  (exists pre, log (snd (run L w (Some "time_series")))
               = pd_to_datetime col :: pre) /\
  (forall ev, In ev (log (snd (run L w (Some "time_series")))) ->
              is_analysis ev = false /\ shows_table ev = false).
Proof.
  intros Hup Hread Hfirst Hcol Hx Hbad.
  destruct (filter_first_date _ _ Hfirst) as [tl Htl].
  destruct (parse_cells_fails L _ _ _ Hx Hbad) as [e [y [He [Hy Hp]]]].
  destruct (run L w (Some "time_series")) as [r w'] eqn:H.
  rewrite run_time_series in H. unfold time_series_page, ts_ingest in H.
  step_in H. rewrite Hup in H. step_in H. rewrite Hread in H.
  rewrite Htl in H. cbn [length Nat.eqb item nth_error] in H.
  step_in H. rewrite Hcol in H. step_in H. rewrite He in H.
  step_in H. injection H as <- <-. cbv [fst snd log].
  split; [exists e, y; auto|]. split; [eexists; reflexivity|].
  intros ev Hev. in_log Hev; subst ev; split; reflexivity.
Qed.

End Claims2.

(** Two answers of the library to the same call are the same answer. *)
Ltac same_answer Hok :=
  match type of Hok with
  | ?call = Ok ?z =>
      match goal with
      | X : call = Ok ?y |- _ =>
          tryif constr_eq y z then fail
          else (rewrite Hok in X; injection X; intros; subst)
      end
  end.

Ltac same_error Herr :=
  match type of Herr with
  | ?call = Err ?z =>
      match goal with
      | X : call = Err ?y |- _ =>
          tryif constr_eq y z then fail
          else (rewrite Herr in X; injection X; intros; subst)
      end
  end.

Section Claims3.

Variable L : Lib.

(** C10.  The ADF test is outside any [try]: in every run, when
    [adfuller] raises on the series it is called on, the run ends with
    that very exception, the call is the last thing the run does (no
    warning is shown for it) and the forecast section is not rendered. *)
Theorem adfuller_exception_is_not_caught (w : Widgets) (p : option string)
  (r : res unit) (w' : world) (ser : Series) (e : exn) :
  run L w p = (r, w') ->
  In (sm_adfuller ser) (log w') ->
  lib_adfuller L ser = Err e ->
  r = Err e /\
  (exists pre, log w' = sm_adfuller ser :: pre) /\
  ~ In (st_subheader "🔮 Forecast (ARIMA)") (log w').
Proof.
  intros H Hin He.
  destruct (run_cases L w p r w' H)
    as [F | [df [[pg lg] [F [Ha | [Ha | Ha]]]]]];
    cbv [log] in F; clear H.
  - not_prelude F Hin.
  - unfold_analysis Ha. exec_in Ha.
    all: try congruence.
    all: injection Ha as <- <-; cbv [log] in *.
    all: in_log Hin; try not_prelude F Hin.
    all: injection Hin as ->.
    all: try congruence.
    all: split; [congruence | split; [eexists; reflexivity|]].
    all: intros Hf; in_log Hf; not_prelude F Hf.
  - unfold_analysis Ha. exec_in Ha.
    all: injection Ha as <- <-; cbv [log] in *.
    all: in_log Hin; not_prelude F Hin.
  - unfold_analysis Ha. exec_in Ha.
    all: injection Ha as <- <-; cbv [log] in *.
    all: in_log Hin; not_prelude F Hin.
Qed.

(** C1.  In every run, the verdict shown for a p-value depends on the
    p-value alone.  For the p-value the ADF test returned, [Data is
    Stationary] is shown when p < 0.05 and only then, and [Data is Not
    Stationary] is shown when p < 0.05 is false and only then; the same
    for the t-test and for the chi-square test with their two messages.
    The comparison is the one of binary64 floats: it is true of 0.0499,
    false of 0.0501 and of 0.05 itself. *)
Theorem verdict_follows_p_value (w : Widgets) (p : option string)
  (r : res unit) (w' : world) :
  run L w p = (r, w') ->
  (forall ser adf,
      In (sm_adfuller ser) (log w') -> lib_adfuller L ser = Ok adf ->
      (In (st_success "Data is Stationary") (log w')
       <-> (adf_pvalue adf <? 0.05)%float = true) /\
      (In (st_warning "Data is Not Stationary") (log w')
       <-> (adf_pvalue adf <? 0.05)%float = false)) /\
  (forall a b t pv,
      In (scipy_ttest_ind a b) (log w') ->
      lib_ttest_ind L a b = Ok (t, pv) ->
      (In (st_success "Reject H₀ — Significant Difference") (log w')
       <-> (pv <? 0.05)%float = true) /\
      (In (st_warning "Fail to Reject H₀") (log w')
       <-> (pv <? 0.05)%float = false)) /\
  (forall tbl c,
      In (scipy_chi2_contingency tbl) (log w') ->
      lib_chi2_contingency L tbl = Ok c ->
      (In (st_success "Reject H₀ — Dependent Variables") (log w')
       <-> (chi2_pvalue c <? 0.05)%float = true) /\
      (In (st_warning "Fail to Reject H₀ — Independent") (log w')
       <-> (chi2_pvalue c <? 0.05)%float = false)) /\
  ((0.0499 <? 0.05)%float = true /\
   (0.0501 <? 0.05)%float = false /\
   (0.05 <? 0.05)%float = false).
Proof.
  intros H.
  assert (Hno : forall x, Forall prelude_event (log w') ->
                          In x (log w') -> is_analysis x = true -> False).
  { intros x F Hx Hk. pose proof (prelude_In _ _ F Hx) as P.
    destruct x; try discriminate Hk; exact P. }
  split; [|split; [|split; [|repeat split; reflexivity]]].
  - intros ser adf Hin Hok.
    destruct (run_cases L w p r w' H)
      as [F | [df [[pg lg] [F [Ha | [Ha | Ha]]]]]];
      [exfalso; exact (Hno _ F Hin eq_refl)| | |];
      cbv [log] in F; clear H Hno; unfold_analysis Ha; exec_in Ha.
    all: try congruence.
    all: injection Ha as <- <-; cbv [log] in *.
    all: in_log Hin; try not_prelude F Hin.
    all: injection Hin as ->.
    all: try congruence.
    all: same_answer Hok.
    all: split; split; intros X;
      first [ assumption | congruence | solve [find_in_log]
            | in_log X; not_prelude F X ].
  - intros a b t pv Hin Hok.
    destruct (run_cases L w p r w' H)
      as [F | [df [[pg lg] [F [Ha | [Ha | Ha]]]]]];
      [exfalso; exact (Hno _ F Hin eq_refl)| | |];
      cbv [log] in F; clear H Hno; unfold_analysis Ha; exec_in Ha.
    all: try congruence.
    all: injection Ha as <- <-; cbv [log] in *.
    all: in_log Hin; try not_prelude F Hin.
    all: injection Hin as -> ->.
    all: try congruence.
    all: same_answer Hok.
    all: split; split; intros X;
      first [ assumption | congruence | solve [find_in_log]
            | in_log X; not_prelude F X ].
  - intros tbl c Hin Hok.
    destruct (run_cases L w p r w' H)
      as [F | [df [[pg lg] [F [Ha | [Ha | Ha]]]]]];
      [exfalso; exact (Hno _ F Hin eq_refl)| | |];
      cbv [log] in F; clear H Hno; unfold_analysis Ha; exec_in Ha.
    all: try congruence.
    all: injection Ha as <- <-; cbv [log] in *.
    all: in_log Hin; try not_prelude F Hin.
    all: injection Hin as ->.
    all: try congruence.
    all: same_answer Hok.
    all: split; split; intros X;
      first [ assumption | congruence | solve [find_in_log]
            | in_log X; not_prelude F X ].
Qed.

End Claims3.

Section Claims4.

Variable L : Lib.

(** C5, with the forecast section conditional on the ADF test.  In every
    run the decomposition is called with the additive model and the period
    12.  When it raises an [Exception], the warning [Decomposition error:
    ...] with the message of the exception is shown, the ADF section is
    rendered and [adfuller] is called on the same series; when [adfuller]
    in turn returns, the forecast section is rendered and the run ends
    normally. *)
Theorem decomposition_failure_is_a_warning (w : Widgets)
  (p : option string) (r : res unit) (w' : world) :
  run L w p = (r, w') ->
  (forall ser m per,
      In (sm_seasonal_decompose ser m per) (log w') ->
      m = "additive" /\ per = 12%Z) /\
  (forall ser e,
      In (sm_seasonal_decompose ser "additive" 12) (log w') ->
      lib_seasonal_decompose L ser "additive" 12 = Err e ->
      is_Exception e = true ->
      In (st_warning ("Decomposition error: " ++ str e)) (log w') /\
      In (st_subheader "📌 ADF Stationarity Test") (log w') /\
      In (sm_adfuller ser) (log w') /\
      (forall adf, lib_adfuller L ser = Ok adf ->
         In (st_subheader "🔮 Forecast (ARIMA)") (log w') /\ r = Ok tt)).
Proof.
  intros H. split.
  - intros ser m per Hin.
    pose proof (run_log L w (fixed_arguments w) p (script_arguments L w))
      as F.
    rewrite H in F. rewrite Forall_forall in F. exact (F _ Hin).
  - intros ser e Hin He Hexc.
    destruct (run_cases L w p r w' H)
      as [F | [df [[pg lg] [F [Ha | [Ha | Ha]]]]]];
      cbv [log] in F; clear H; [not_prelude F Hin| | |];
      unfold_analysis Ha; exec_in Ha.
    all: try congruence.
    all: injection Ha as <- <-; cbv [log] in *.
    all: in_log Hin; try not_prelude F Hin.
    all: injection Hin as ->.
    all: try congruence.
    all: try same_error He.
    all: try congruence.
    all: repeat split; try solve [find_in_log]; try congruence.
    all: intros adf Hadf; split; first [solve [find_in_log] | congruence].
Qed.

(** C6.  In every run the horizon [n] of the forecast is the position of
    the slider, an integer from 5 to 60: 12 while the slider is untouched,
    the chosen value when that value is from 5 to 60, and 12 again for any
    other value; the forecast is never asked for another number of steps.
    When the ADF test has returned on a series, that series is the column
    selected among the numeric columns of the table in the preview, the
    slider is shown and the model is built on that series; when the model
    is built it is fitted, when it is fitted its forecast is asked for [n]
    steps, and when the forecast returns, the run ends normally, the
    forecast has exactly [n] values and one figure of 12 by 4 inches with
    a legend and exactly two lines is shown: the selected series labelled
    [History] and the forecast labelled [Forecast]. *)
Theorem forecast_horizon_and_length (w : Widgets) (p : option string)
  (r : res unit) (w' : world) :
  run L w p = (r, w') ->
  let n := st.position w "Forecast Steps:" 5 60 12 in
  (5 <= n <= 60)%Z /\
  (slid w "Forecast Steps:" = None -> n = 12%Z) /\
  (forall v, slid w "Forecast Steps:" = Some v -> (5 <= v <= 60)%Z ->
             n = v) /\
  (forall v, slid w "Forecast Steps:" = Some v -> (v < 5 \/ 60 < v)%Z ->
             n = 12%Z) /\
  (forall res k, In (sm_forecast res k) (log w') -> k = n) /\
  (forall s adf,
      In (sm_adfuller s) (log w') ->
      lib_adfuller L s = Ok adf ->
      (exists df,
          In (st_write [v_frame (pandas.head df)]) (log w') /\
          pandas.getitem df
            (st.chosen w "Select Numeric Column"
               (pandas.select_dtypes [float64; int64] df))
          = Ok s) /\
      In (st_slider "Forecast Steps:" 5 60 12) (log w') /\
      In (sm_ARIMA s (1, 1, 1)%Z) (log w') /\
      (forall m, lib_ARIMA L s (1, 1, 1)%Z = Ok m ->
         In (sm_fit m) (log w')) /\
      (forall m res,
         lib_ARIMA L s (1, 1, 1)%Z = Ok m ->
         lib_fit L m = Ok res ->
         In (sm_forecast res n) (log w')) /\
      (forall m res g,
         lib_ARIMA L s (1, 1, 1)%Z = Ok m ->
         lib_fit L m = Ok res ->
         lib_forecast L res n = Ok g ->
         r = Ok tt /\
         Z.of_nat (length (s_values (sm.predictions g n))) = n /\
         Z.of_nat (length (s_index (sm.predictions g n))) = n /\
         In (st_pyplot
               (Axes (12, 4)%Z None
                  [(s, Some "History");
                   (sm.predictions g n, Some "Forecast")]
                  true))
            (log w'))).
Proof.
  intros H n.
  assert (Hn : (5 <= n <= 60)%Z) by apply position_in_range.
  split; [exact Hn|].
  split; [intros Hs; subst n; unfold st.position; now rewrite Hs|].
  split; [intros v Hs Hv; exact (position_chosen w _ 5 60 12 v Hs Hv)|].
  split; [intros v Hs Hv; exact (position_reset w _ 5 60 12 v Hs Hv)|].
  split.
  { intros res k Hin.
    pose proof (run_log L w (fixed_arguments w) p (script_arguments L w))
      as F.
    rewrite H in F. rewrite Forall_forall in F. exact (F _ Hin). }
  assert (Hlen : forall g,
             Z.of_nat (length (s_values (sm.predictions g n))) = n /\
             Z.of_nat (length (s_index (sm.predictions g n))) = n).
  { intros g. destruct (predictions_length g n) as [-> ->].
    rewrite Z2Nat.id by lia. split; reflexivity. }
  subst n. clear Hn.
  intros s adf Hin Hadf.
  destruct (run_cases_preview L w p r w' H)
    as [F | [df [[pg lg] [F [[Hw Ha] | [Ha | Ha]]]]]];
    cbv [log] in F; clear H; [not_prelude F Hin| | |];
    unfold_analysis Ha; exec_in Ha.
  all: try congruence.
  all: injection Ha as <- <-; cbv [log] in *.
  all: in_log Hin; try not_prelude F Hin.
  all: injection Hin as ->.
  all: try congruence.
  all: (split; [exists df; split;
                [repeat (first [exact Hw | right]) | assumption]|]).
  all: (split; [solve [find_in_log]|]).
  all: (split; [solve [find_in_log]|]).
  all: (split; [intros m HA;
                first [congruence | same_answer HA; solve [find_in_log]]|]).
  all: (split; [intros m res HA HF; try congruence; same_answer HA;
                first [congruence | same_answer HF; solve [find_in_log]]|]).
  all: intros m res g HA HF HG; try congruence; same_answer HA;
    try congruence; same_answer HF; try congruence; same_answer HG.
  all: split; [reflexivity|].
  all: split; [apply Hlen|].
  all: split; [apply Hlen|find_in_log].
Qed.

(** C7.  In every run the model is built with the order (1, 1, 1).  When
    building it, fitting it or forecasting raises anything at all, the run
    shows the one warning [ARIMA failed. Try more data.], closes the
    section and ends normally: what follows the failed call in the log
    does not depend on the exception. *)
Theorem arima_failure_is_a_generic_warning (w : Widgets)
  (p : option string) (r : res unit) (w' : world) :
  run L w p = (r, w') ->
  (forall s o, In (sm_ARIMA s o) (log w') -> o = (1, 1, 1)%Z) /\
  (forall s e,
      In (sm_ARIMA s (1, 1, 1)%Z) (log w') ->
      lib_ARIMA L s (1, 1, 1)%Z = Err e ->
      r = Ok tt /\
      exists pre,
        log w' = st_markdown "</div>"
                 :: st_warning "ARIMA failed. Try more data."
                 :: sm_ARIMA s (1, 1, 1)%Z :: pre) /\
  (forall m e,
      In (sm_fit m) (log w') ->
      lib_fit L m = Err e ->
      r = Ok tt /\
      exists pre,
        log w' = st_markdown "</div>"
                 :: st_warning "ARIMA failed. Try more data."
                 :: sm_fit m :: pre) /\
  (forall res n e,
      In (sm_forecast res n) (log w') ->
      lib_forecast L res n = Err e ->
      r = Ok tt /\
      exists pre,
        log w' = st_markdown "</div>"
                 :: st_warning "ARIMA failed. Try more data."
                 :: sm_forecast res n :: pre).
Proof.
  intros H. split.
  { intros s o Hin.
    pose proof (run_log L w (fixed_arguments w) p (script_arguments L w))
      as F.
    rewrite H in F. rewrite Forall_forall in F. exact (F _ Hin). }
  destruct (run_cases L w p r w' H)
    as [F | [df [[pg lg] [F [Ha | [Ha | Ha]]]]]];
    cbv [log] in F; clear H.
  - repeat split; intros; exfalso;
      match goal with X : In _ _ |- _ => not_prelude F X end.
  - unfold_analysis Ha. exec_in Ha.
    all: try congruence.
    all: injection Ha as <- <-; cbv [log] in *.
    all: repeat split; intros;
      match goal with
      | X : In _ _, Y : _ = Err _ |- _ =>
          in_log X; try not_prelude F X;
          injection X; intros; subst;
          first [congruence | eexists; reflexivity]
      end.
  - unfold_analysis Ha. exec_in Ha.
    all: injection Ha as <- <-; cbv [log] in *.
    all: repeat split; intros;
      match goal with X : In _ _ |- _ => in_log X; not_prelude F X end.
  - unfold_analysis Ha. exec_in Ha.
    all: injection Ha as <- <-; cbv [log] in *.
    all: repeat split; intros;
      match goal with X : In _ _ |- _ => in_log X; not_prelude F X end.
Qed.

End Claims4.

(** ** The session *)

Section Session.

Variable L : Lib.

Lemma script_from_home (w : Widgets) (p : option string)
  (lg : list event) :
  p = None \/ p = Some "home" ->
  script L w (mkWorld p lg) =
  home_page w
    (mkWorld (Some "home")
       (st_markdown page_css :: st_set_page_config "TrendLab" "wide" :: lg)).
Proof. intros [-> | ->]; reflexivity. Qed.

Lemma script_from_time_series (w : Widgets) (lg : list event) :
  script L w (mkWorld (Some "time_series") lg) =
  time_series_page L w
    (mkWorld (Some "time_series")
       (st_markdown page_css :: st_set_page_config "TrendLab" "wide" :: lg)).
Proof. reflexivity. Qed.

Lemma script_from_hypothesis (w : Widgets) (lg : list event) :
  script L w (mkWorld (Some "hypothesis") lg) =
  hypothesis_page L w
    (mkWorld (Some "hypothesis")
       (st_markdown page_css :: st_set_page_config "TrendLab" "wide" :: lg)).
Proof. reflexivity. Qed.

(** The home page leaves a known page behind it. *)
Lemma home_page_page (w : Widgets) (lg : list event) :
  known_page "home" ->
  exists q, page (snd (home_page w (mkWorld (Some "home") lg))) = Some q /\
            known_page q.
Proof.
  intros _. unfold known_page.
  destruct (home_page w (mkWorld (Some "home") lg)) as [r w'] eqn:H.
  unfold home_page in H. exec_in H.
  all: injection H as <- <-; cbv [snd page]; eauto 6.
Qed.

(** From no page or from a known page, a run of the script ends on a known
    page. *)
Lemma script_page (w : Widgets) (p : option string) (lg : list event) :
  p = None \/ (exists s, p = Some s /\ known_page s) ->
  exists q, page (snd (script L w (mkWorld p lg))) = Some q /\
            known_page q.
Proof.
  intros [-> | [s [-> [-> | [-> | ->]]]]].
  - rewrite script_from_home by auto.
    apply home_page_page. left; reflexivity.
  - rewrite script_from_home by auto.
    apply home_page_page. left; reflexivity.
  - rewrite script_from_time_series, time_series_page_keeps_page.
    exists "time_series". split; [reflexivity | right; left; reflexivity].
  - rewrite script_from_hypothesis, hypothesis_page_keeps_page.
    exists "hypothesis". split; [reflexivity | right; right; reflexivity].
Qed.

Lemma on_click_goes_home (l : string) (evs : list event) (cb : callback) :
  Forall button_goes_home evs ->
  on_click_of l evs = Some cb -> cb = cb_go_to "home".
Proof.
  induction evs as [|e evs IH]; simpl; [discriminate|].
  intros F. inversion F as [|? ? He Hevs]; subst.
  destruct e; auto.
  destruct on_click as [c|]; auto.
  destruct (label =? l); auto.
  intros X. injection X as <-. exact He.
Qed.

(** The page the callbacks leave: the one they found, or the home page. *)
Lemma callbacks_page (w : Widgets) (a : App) :
  Forall button_goes_home (rendered a) ->
  page (snd (callbacks w a (mkWorld (session a) []))) = session a \/
  page (snd (callbacks w a (mkWorld (session a) []))) = Some "home".
Proof.
  intros F. unfold callbacks.
  destruct (clicked w) as [l|]; [|left; reflexivity].
  destruct (on_click_of l (rendered a)) as [cb|] eqn:E; [|left; reflexivity].
  rewrite (on_click_goes_home _ _ _ F E). right; reflexivity.
Qed.

Lemma rerun_rendered (w : Widgets) (a : App) :
  Forall button_goes_home (rendered (rerun L w a)).
Proof.
  unfold rerun. cbn [rendered].
  destruct (script_buttons L w
              (mkWorld (page (snd (callbacks w a (mkWorld (session a) []))))
                       [])) as [new [E F]].
  rewrite E, app_nil_r. exact F.
Qed.

Lemma rerun_session (w : Widgets) (a : App) :
  session a = None \/ (exists s, session a = Some s /\ known_page s) ->
  Forall button_goes_home (rendered a) ->
  exists q, session (rerun L w a) = Some q /\ known_page q.
Proof.
  intros Hs F. unfold rerun. cbn [session].
  apply script_page.
  destruct (callbacks_page w a F) as [-> | ->]; [exact Hs|].
  right. exists "home". split; [reflexivity | left; reflexivity].
Qed.

Lemma reachable_inv (a : App) :
  reachable L a ->
  (a = first_load \/ exists s, session a = Some s /\ known_page s) /\
  Forall button_goes_home (rendered a).
Proof.
  induction 1 as [|w a Ha [IHs IHr]].
  - split; [left; reflexivity | constructor].
  - split; [right | apply rerun_rendered].
    apply rerun_session; [|exact IHr].
    destruct IHs as [->|IHs]; [left; reflexivity | right; exact IHs].
Qed.

(** C9.  The page field is one of [home], [time_series], [hypothesis] at
    every moment of a session after its first load.  The first load sets
    it to [home]; every run from a reachable state leaves it on one of the
    three; and every callback a reachable rendering has registered goes to
    [home]. *)
Theorem page_is_always_known (a : App) :
  reachable L a ->
  (a = first_load \/ exists s, session a = Some s /\ known_page s) /\
  (forall w, exists q, session (rerun L w a) = Some q /\ known_page q) /\
  (forall l cb, on_click_of l (rendered a) = Some cb ->
                cb = cb_go_to "home") /\
  (forall w, clicked w = None ->
             session (rerun L w first_load) = Some "home").
Proof.
  intros Ha. destruct (reachable_inv a Ha) as [Hs Hr].
  split; [exact Hs|]. split; [|split].
  - intros w. apply rerun_session; [|exact Hr].
    destruct Hs as [->|Hs]; [left; reflexivity | right; exact Hs].
  - intros l cb. apply on_click_goes_home. exact Hr.
  - intros w Hw. unfold rerun, callbacks, first_load. cbn [session rendered].
    rewrite Hw. cbv [ret snd page]. rewrite script_from_home by auto.
    unfold home_page, st.button, st.pressed. rewrite Hw. reflexivity.
Qed.

End Session.

(** ** The claims on the samples *)

(** An event is in the log of a run on a sample. *)
Ltac in_sample_log := vm_compute; repeat (first [left; reflexivity | right]).

Lemma missing_date_column_stops_the_run_witness :
  status_of (fst (run Sample.lib (Sample.widgets "undated.csv")
                    (Some "time_series"))) = Stopped /\
  log (snd (run Sample.lib (Sample.widgets "undated.csv")
              (Some "time_series")))
  = [st_error "No date column found!";
     pd_read_csv (Sample.file "undated.csv");
     st_markdown "<div class='card'>"; st_container;
     st_file_uploader "Upload CSV";
     st_markdown "<h1 class='big-title'>📈 Time Series Analysis</h1>";
     st_button "⬅ Back" (Some (cb_go_to "home"));
     st_markdown page_css; st_set_page_config "TrendLab" "wide"].
Proof.
  split; [|reflexivity].
  apply (missing_date_column_stops_the_run Sample.lib
           (Sample.widgets "undated.csv") (Sample.file "undated.csv")
           Sample.undated).
  - reflexivity.
  - reflexivity.
  - intros c Hc Hd. apply is_date_col_iff in Hd.
    simpl in Hc. destruct Hc as [<-|[<-|[]]]; vm_compute in Hd; discriminate.
Defined.

Lemma chi_square_needs_two_text_columns_witness :
  fst (run Sample.lib (Sample.widgets_pressed "survey.csv" "Run Chi-Square")
         (Some "hypothesis")) = Ok tt /\
  exists pre,
    log (snd (run Sample.lib
                (Sample.widgets_pressed "survey.csv" "Run Chi-Square")
                (Some "hypothesis")))
    = st_error "Need 2 categorical columns!" :: pre.
Proof.
  destruct (chi_square_needs_two_text_columns Sample.lib
              (Sample.widgets_pressed "survey.csv" "Run Chi-Square")
              (Sample.file "survey.csv") Sample.survey)
    as [Hr [Hlog _]].
  - reflexivity.
  - reflexivity.
  - reflexivity.
  - vm_compute. lia.
  - split; assumption.
Defined.

Lemma first_date_column_is_the_index_witness :
  exists col,
    pandas.getitem Sample.short (Some "OrderDate") = Ok col /\
    In (pd_to_datetime col)
       (log (snd (run Sample.lib (Sample.widgets "short.csv")
                    (Some "time_series")))) /\
    forall s, In (pd_to_datetime s)
                 (log (snd (run Sample.lib (Sample.widgets "short.csv")
                              (Some "time_series")))) -> s = col.
Proof.
  destruct (first_date_column_is_the_index Sample.lib
              (Sample.widgets "short.csv") (Sample.file "short.csv")
              Sample.short "OrderDate")
    as [col [Hcol [_ [Hin [Honly _]]]]].
  - reflexivity.
  - reflexivity.
  - exists [], ["Sales"; "ShipDate"]. split; [reflexivity|].
    split; [intros x []|]. exists "Order", "Date", "". split; reflexivity.
  - exists col. split; [exact Hcol | split; [exact Hin | exact Honly]].
Defined.

Lemma unparsable_date_fails_the_ingestion_witness :
  fst (run Sample.lib (Sample.widgets "garbled.csv") (Some "time_series"))
  = Err (Exception "DateParseError" "Unknown datetime string format") /\
  forall ev,
    In ev (log (snd (run Sample.lib (Sample.widgets "garbled.csv")
                       (Some "time_series")))) ->
    is_analysis ev = false /\ shows_table ev = false.
Proof.
  destruct (unparsable_date_fails_the_ingestion Sample.lib
              (Sample.widgets "garbled.csv") (Sample.file "garbled.csv")
              Sample.garbled "when_DATE"
              (mkSeries (Some "when_DATE") (Sample.range_index 3)
                 [c_str "2024-01-01"; c_str "soon"; c_str "2024-01-03"])
              (c_str "soon")
              (Exception "DateParseError" "Unknown datetime string format"))
    as [_ [_ Hnone]].
  - reflexivity.
  - reflexivity.
  - exists [], ["Sales"]. split; [reflexivity|].
    split; [intros x []|]. exists "when_", "DATE", "". split; reflexivity.
  - reflexivity.
  - simpl. auto.
  - reflexivity.
  - split; [reflexivity | exact Hnone].
Defined.

Lemma verdict_follows_p_value_witness :
  In (st_success "Data is Stationary")
     (log (snd (run Sample.lib (Sample.widgets "short.csv")
                  (Some "time_series")))).
Proof.
  destruct (verdict_follows_p_value Sample.lib (Sample.widgets "short.csv")
              (Some "time_series")
              (fst (run Sample.lib (Sample.widgets "short.csv")
                      (Some "time_series")))
              (snd (run Sample.lib (Sample.widgets "short.csv")
                      (Some "time_series"))))
    as [Hadf _].
  - apply surjective_pairing.
  - destruct (Hadf (Sample.sales Sample.short)
                (mkAdf (-3)%float 0.0499%float)) as [[_ Hshown] _].
    + in_sample_log.
    + reflexivity.
    + apply Hshown. reflexivity.
Defined.

(** C5, as the specification states it, fails on the sample with a missing
    value: the decomposition raises an [Exception] and its warning is shown,
    but [adfuller] raises as well, and the forecast section is not
    rendered. *)
Lemma decomposition_failure_without_forecast :
  In (sm_seasonal_decompose (Sample.sales Sample.gaps) "additive" 12)
     (log (snd (run Sample.lib (Sample.widgets "gaps.csv")
                  (Some "time_series")))) /\
  lib_seasonal_decompose Sample.lib (Sample.sales Sample.gaps) "additive" 12
  = Err (Exception "ValueError" "x must have 2 complete cycles") /\
  In (st_warning "Decomposition error: x must have 2 complete cycles")
     (log (snd (run Sample.lib (Sample.widgets "gaps.csv")
                  (Some "time_series")))) /\
  ~ In (st_subheader "🔮 Forecast (ARIMA)")
       (log (snd (run Sample.lib (Sample.widgets "gaps.csv")
                    (Some "time_series")))) /\
  fst (run Sample.lib (Sample.widgets "gaps.csv") (Some "time_series"))
  = Err (Exception "MissingDataError" "exog contains inf or nans").
Proof.
  split; [in_sample_log|]. split; [reflexivity|]. split; [in_sample_log|].
  split; [|reflexivity].
  apply (not_in_log (is_subheader "🔮 Forecast (ARIMA)")); reflexivity.
Qed.

Lemma decomposition_failure_is_a_warning_witness :
  In (st_warning "Decomposition error: x must have 2 complete cycles")
     (log (snd (run Sample.lib (Sample.widgets "short.csv")
                  (Some "time_series")))) /\
  In (st_subheader "🔮 Forecast (ARIMA)")
     (log (snd (run Sample.lib (Sample.widgets "short.csv")
                  (Some "time_series")))) /\
  fst (run Sample.lib (Sample.widgets "short.csv") (Some "time_series"))
  = Ok tt.
Proof.
  destruct (decomposition_failure_is_a_warning Sample.lib
              (Sample.widgets "short.csv") (Some "time_series")
              (fst (run Sample.lib (Sample.widgets "short.csv")
                      (Some "time_series")))
              (snd (run Sample.lib (Sample.widgets "short.csv")
                      (Some "time_series"))))
    as [_ Hwarn].
  - apply surjective_pairing.
  - destruct (Hwarn (Sample.sales Sample.short)
                (Exception "ValueError" "x must have 2 complete cycles"))
      as [Hw [_ [_ Hnext]]].
    + in_sample_log.
    + reflexivity.
    + reflexivity.
    + destruct (Hnext (mkAdf (-3)%float 0.0499%float)) as [Hf Hr];
        [reflexivity|].
      split; [exact Hw | split; assumption].
Defined.

Lemma forecast_horizon_and_length_witness :
  st.position (MoreSamples.dragging "seasonal.csv" 24) "Forecast Steps:"
    5 60 12 = 24%Z /\
  fst (run MoreSamples.lib (MoreSamples.dragging "seasonal.csv" 24)
         (Some "time_series")) = Ok tt /\
  Z.of_nat (length (s_values (sm.predictions MoreSamples.next_months 24)))
  = 24%Z /\
  In (st_pyplot
        (Axes (12, 4)%Z None
           [(MoreSamples.sales_by_month, Some "History");
            (sm.predictions MoreSamples.next_months 24, Some "Forecast")]
           true))
     (log (snd (run MoreSamples.lib
                  (MoreSamples.dragging "seasonal.csv" 24)
                  (Some "time_series")))).
Proof.
  pose proof (forecast_horizon_and_length MoreSamples.lib
                (MoreSamples.dragging "seasonal.csv" 24)
                (Some "time_series")
                (fst (run MoreSamples.lib
                        (MoreSamples.dragging "seasonal.csv" 24)
                        (Some "time_series")))
                (snd (run MoreSamples.lib
                        (MoreSamples.dragging "seasonal.csv" 24)
                        (Some "time_series")))
                (surjective_pairing _)) as T.
  cbv zeta in T. destruct T as [_ [_ [Hv [_ [_ Hs]]]]].
  split; [apply Hv; [reflexivity | lia]|].
  destruct (Hs MoreSamples.sales_by_month (mkAdf (-3)%float 0.5%float))
    as [_ [_ [_ [_ [_ Hplot]]]]].
  - in_sample_log.
  - reflexivity.
  - destruct (Hplot
                (mkARIMAModel MoreSamples.sales_by_month (1, 1, 1)%Z)
                (mkARIMAResults
                   (mkARIMAModel MoreSamples.sales_by_month (1, 1, 1)%Z) [])
                MoreSamples.next_months)
      as [Hr [Hlen [_ Hin]]].
    + reflexivity.
    + reflexivity.
    + reflexivity.
    + split; [exact Hr | split; [exact Hlen | exact Hin]].
Defined.

Lemma arima_failure_is_a_generic_warning_witness :
  fst (run Sample.lib (Sample.widgets "short.csv") (Some "time_series"))
  = Ok tt /\
  exists pre,
    log (snd (run Sample.lib (Sample.widgets "short.csv")
                (Some "time_series")))
    = st_markdown "</div>"
      :: st_warning "ARIMA failed. Try more data."
      :: sm_fit (mkARIMAModel (Sample.sales Sample.short) (1, 1, 1)%Z)
      :: pre.
Proof.
  destruct (arima_failure_is_a_generic_warning Sample.lib
              (Sample.widgets "short.csv") (Some "time_series")
              (fst (run Sample.lib (Sample.widgets "short.csv")
                      (Some "time_series")))
              (snd (run Sample.lib (Sample.widgets "short.csv")
                      (Some "time_series"))))
    as [_ [_ [Hfit _]]].
  - apply surjective_pairing.
  - apply (Hfit (mkARIMAModel (Sample.sales Sample.short) (1, 1, 1)%Z)
             (Exception "ValueError" "too few observations")).
    + in_sample_log.
    + reflexivity.
Defined.

Lemma adfuller_exception_is_not_caught_witness :
  fst (run Sample.lib (Sample.widgets "gaps.csv") (Some "time_series"))
  = Err (Exception "MissingDataError" "exog contains inf or nans") /\
  ~ In (st_subheader "🔮 Forecast (ARIMA)")
       (log (snd (run Sample.lib (Sample.widgets "gaps.csv")
                    (Some "time_series")))).
Proof.
  destruct (adfuller_exception_is_not_caught Sample.lib
              (Sample.widgets "gaps.csv") (Some "time_series")
              (fst (run Sample.lib (Sample.widgets "gaps.csv")
                      (Some "time_series")))
              (snd (run Sample.lib (Sample.widgets "gaps.csv")
                      (Some "time_series")))
              (Sample.sales Sample.gaps)
              (Exception "MissingDataError" "exog contains inf or nans"))
    as [Hr [_ Hno]].
  - apply surjective_pairing.
  - in_sample_log.
  - reflexivity.
  - split; assumption.
Defined.

Lemma page_is_always_known_witness :
  session (rerun Sample.lib (Sample.widgets "short.csv") first_load)
  = Some "home" /\
  exists q,
    session (rerun Sample.lib
               (Sample.widgets_pressed "poll.csv" "📈 Time Series Analysis")
               first_load) = Some q /\
    known_page q.
Proof.
  destruct (page_is_always_known Sample.lib first_load)
    as [_ [Hnext [_ Hfirst]]].
  - apply reach_first.
  - split; [apply Hfirst; reflexivity | apply Hnext].
Defined.

(** * More of the script *)

(** ** The frame of every run *)

Section Frame.

Variable L : Lib.
Variable w : Widgets.

(** X1.  In every run, whatever the page and the widgets, the first thing
    the script asks of Streamlit is the page configuration and the second
    is the style sheet: they are the two oldest events of the log. *)
Theorem page_config_comes_first (p : option string) :
  exists rest,
    log (snd (run L w p))
    = rest ++ [st_markdown page_css; st_set_page_config "TrendLab" "wide"].
Proof.
  unfold run, script.
  match goal with
  | |- context [bind (st.markdown page_css) (fun _ => ?m)] =>
      assert (A : adds (fun _ => True) m)
        by (unfold_pages; unfold_calls; repeat adds_step; exact I);
      destruct (A (mkWorld p [st_markdown page_css;
                              st_set_page_config "TrendLab" "wide"]))
        as [new [E _]]
  end.
  exists new. cbn [log] in E. rewrite <- E. reflexivity.
Qed.

(** X2.  On the home page (also on the first load) a run always ends
    normally; it shows no file uploader, reads no file and calls no
    statistics routine; the page field it leaves is the one of the button
    that was pressed, [home] when none was. *)
Theorem home_page_only_navigates (p : option string) :
  p = None \/ p = Some "home" ->
  fst (run L w p) = Ok tt /\
  page (snd (run L w p))
  = Some (if st.pressed w "📊 Hypothesis Testing" then "hypothesis"
          else if st.pressed w "📈 Time Series Analysis" then "time_series"
               else "home") /\
  (forall e, In e (log (snd (run L w p))) ->
             is_analysis e = false /\ no_reading e /\
             forall l, e <> st_file_uploader l).
Proof.
  intros Hp. rewrite (run_home L w p Hp).
  destruct (home_page w _) as [r w'] eqn:H.
  unfold home_page in H. exec_in H.
  all: injection H as <- <-; cbv [fst snd page log].
  all: split; [reflexivity|]; split; [reflexivity|].
  all: intros e He; in_log He; subst e;
    (split; [reflexivity | split; [exact I | discriminate]]).
Qed.

(** X5.  A run on the time-series page or on the hypothesis page never
    changes the page field, whatever it reads and whatever is raised: only
    the callback of the back button leaves these pages. *)
Theorem analysis_pages_keep_the_page (p : option string) :
  p = Some "time_series" \/ p = Some "hypothesis" ->
  page (snd (run L w p)) = p.
Proof.
  intros [-> | ->].
  - rewrite run_time_series. apply time_series_page_keeps_page.
  - rewrite run_hypothesis. apply hypothesis_page_keeps_page.
Qed.

(** X6.  With no file uploaded, a run on the time-series page or on the
    hypothesis page ends normally right after showing the uploader: it
    reads nothing and computes nothing. *)
Theorem no_upload_no_work (p : option string) :
  p = Some "time_series" \/ p = Some "hypothesis" ->
  uploaded w = None ->
  fst (run L w p) = Ok tt /\
  (exists pre, log (snd (run L w p)) = st_file_uploader "Upload CSV" :: pre) /\
  (forall e, In e (log (snd (run L w p))) ->
             is_analysis e = false /\ no_reading e).
Proof.
  intros Hp Hup. destruct (run L w p) as [r w'] eqn:H.
  destruct Hp as [-> | ->];
    [rewrite run_time_series in H; unfold time_series_page in H
    |rewrite run_hypothesis in H; unfold hypothesis_page in H].
  all: step_in H; rewrite Hup in H; injection H as <- <-; cbv [fst snd log].
  all: split; [reflexivity|]; split; [eexists; reflexivity|].
  all: intros e He; in_log He; subst e; (split; [reflexivity | exact I]).
Qed.

(** X15.  The hypothesis page does not look for a date column: no run on it
    converts a column to dates or shows the error of the missing date
    column, whatever the table. *)
Theorem hypothesis_page_ignores_dates :
  (forall s, ~ In (pd_to_datetime s) (log (snd (run L w (Some "hypothesis")))))
  /\ ~ In (st_error "No date column found!")
          (log (snd (run L w (Some "hypothesis")))).
Proof.
  assert (A : adds no_date_handling (hypothesis_page L w)).
  { unfold_pages; unfold_calls. repeat adds_step.
    all: first [exact I | discriminate]. }
  rewrite run_hypothesis.
  destruct (A (mkWorld (Some "hypothesis")
                 [st_markdown page_css; st_set_page_config "TrendLab" "wide"]))
    as [new [E F]].
  rewrite E. cbn [log]. rewrite Forall_forall in F.
  split; [intros s Hs | intros Hs]; apply in_app_or in Hs;
    destruct Hs as [Hs|Hs].
  - exact (F _ Hs).
  - in_log Hs.
  - exact (F _ Hs eq_refl).
  - in_log Hs.
Qed.

End Frame.

(** ** Navigation *)

Section Navigation.

Variable L : Lib.

Lemma script_back_calls (w : Widgets) : adds only_back_calls (script L w).
Proof.
  unfold_pages; unfold_calls. repeat adds_step.
  all: first [exact I | split; reflexivity].
Qed.

Lemma reachable_back_calls (a : App) :
  reachable L a -> Forall only_back_calls (rendered a).
Proof.
  intros [|w a' _]; [constructor|].
  unfold rerun. cbn [rendered].
  match goal with
  | |- Forall _ (log (snd (script L w ?w0))) =>
      destruct (script_back_calls w w0) as [new [E F]]
  end.
  rewrite E, app_nil_r. exact F.
Qed.

Lemma on_click_is_back (l : string) (evs : list event) (cb : callback) :
  Forall only_back_calls evs ->
  on_click_of l evs = Some cb -> l = "⬅ Back".
Proof.
  induction evs as [|e evs IH]; simpl; [discriminate|].
  intros F. inversion F as [|? ? He Hevs]; subst.
  destruct e; auto.
  destruct on_click as [c|]; auto.
  destruct (label =? l) eqn:E; auto.
  intros _. apply String.eqb_eq in E. subst l. exact (proj1 He).
Qed.

Lemma on_click_found (l : string) (evs : list event) (cb : callback) :
  In (st_button l (Some cb)) evs -> exists cb', on_click_of l evs = Some cb'.
Proof.
  induction evs as [|e evs IH]; simpl; [tauto|].
  intros [->|H].
  - rewrite String.eqb_refl. eauto.
  - destruct e; auto. destruct on_click as [c|]; auto.
    destruct (label =? l); eauto.
Qed.

Lemma adds_keeps (m : M unit) (w0 : world) (e : event) :
  adds (fun _ => True) m -> In e (log w0) -> In e (log (snd (m w0))).
Proof.
  intros A H. destruct (A w0) as [new [E _]]. rewrite E.
  apply in_or_app. right. exact H.
Qed.

(** The time-series page always shows its uploader. *)
Lemma time_series_page_uploader (w : Widgets) (w0 : world) :
  In (st_file_uploader "Upload CSV") (log (snd (time_series_page L w w0))).
Proof.
  change (time_series_page L w w0)
    with ((match uploaded w with
           | Some f => df <- ts_ingest L f ;; ts_analysis L w df
           | None => ret tt
           end)
            (mkWorld (page w0)
               (st_file_uploader "Upload CSV"
                :: st_markdown
                     "<h1 class='big-title'>📈 Time Series Analysis</h1>"
                :: st_button "⬅ Back" (Some (cb_go_to "home")) :: log w0))).
  apply adds_keeps; [|left; reflexivity].
  unfold_pages; unfold_calls. repeat adds_step. all: exact I.
Qed.

(** X3.  A click on [Time Series Analysis] sets the page field in the run
    it causes, but that run still renders the home page (the button, no
    uploader): the time-series page is rendered by the run after it,
    whatever that run is caused by, short of a click on the back button. *)
Theorem navigation_shows_on_the_next_run (a : App) (w w2 : Widgets) :
  reachable L a ->
  session a = None \/ session a = Some "home" ->
  clicked w = Some "📈 Time Series Analysis" ->
  clicked w2 <> Some "⬅ Back" ->
  session (rerun L w a) = Some "time_series" /\
  In (st_button "📈 Time Series Analysis" None) (rendered (rerun L w a)) /\
  (forall l, ~ In (st_file_uploader l) (rendered (rerun L w a))) /\
  session (rerun L w2 (rerun L w a)) = Some "time_series" /\
  In (st_file_uploader "Upload CSV") (rendered (rerun L w2 (rerun L w a))).
Proof.
  intros Ha Hs Hw Hw2.
  assert (R1 : rerun L w a
               = mkApp (Some "time_series")
                   (log (snd (home_page w
                      (mkWorld (Some "home")
                         [st_markdown page_css;
                          st_set_page_config "TrendLab" "wide"]))))).
  { unfold rerun, callbacks. rewrite Hw.
    destruct (on_click_of _ (rendered a)) as [cb|] eqn:E.
    - apply (on_click_is_back _ _ _ (reachable_back_calls a Ha)) in E.
      discriminate E.
    - cbv [ret snd page]. rewrite (script_from_home L w (session a) []) by
        (destruct Hs as [-> | ->]; auto).
      f_equal. unfold home_page, st.button, st.pressed. rewrite Hw.
      reflexivity. }
  assert (Ha1 : reachable L (rerun L w a)) by (apply reach_rerun; exact Ha).
  assert (F1 := reachable_back_calls (rerun L w a) Ha1).
  assert (R2 : page (snd (callbacks w2 (rerun L w a)
                            (mkWorld (session (rerun L w a)) [])))
               = Some "time_series").
  { unfold callbacks.
    destruct (clicked w2) as [l|]; [|rewrite R1; reflexivity].
    destruct (on_click_of l (rendered (rerun L w a))) as [cb|] eqn:E;
      [|rewrite R1; reflexivity].
    apply (on_click_is_back l _ cb F1) in E. subst l. congruence. }
  clear F1 Ha1.
  split; [rewrite R1; reflexivity|].
  split; [rewrite R1; unfold home_page, st.button, st.pressed; rewrite Hw;
          cbn [rendered]; vm_compute; auto 10|].
  split.
  { intros l. rewrite R1. cbn [rendered].
    unfold home_page, st.button, st.pressed. rewrite Hw.
    intros X. vm_compute in X. in_log X. contradiction. }
  unfold rerun at 1 3. rewrite R2. cbn [session rendered].
  rewrite script_from_time_series. split.
  - apply time_series_page_keeps_page.
  - apply time_series_page_uploader.
Qed.

(** X4.  A click on the back button of the page last rendered takes effect
    in the run it causes: the callback sets the page field to [home] before
    the script starts, so the same run renders the home page. *)
Theorem back_returns_home_at_once (a : App) (w : Widgets) :
  reachable L a ->
  In (st_button "⬅ Back" (Some (cb_go_to "home"))) (rendered a) ->
  clicked w = Some "⬅ Back" ->
  session (rerun L w a) = Some "home" /\
  In (st_button "📈 Time Series Analysis" None) (rendered (rerun L w a)) /\
  (forall l, ~ In (st_file_uploader l) (rendered (rerun L w a))).
Proof.
  intros Ha Hin Hw.
  destruct (on_click_found _ _ _ Hin) as [cb Hcb].
  assert (Hhome : cb = cb_go_to "home").
  { destruct (reachable_inv L a Ha) as [_ F].
    exact (on_click_goes_home _ _ _ F Hcb). }
  subst cb.
  assert (R : rerun L w a
              = mkApp (Some "home")
                  (log (snd (home_page w
                     (mkWorld (Some "home")
                        [st_markdown page_css;
                         st_set_page_config "TrendLab" "wide"]))))).
  { unfold rerun, callbacks. rewrite Hw, Hcb.
    cbv [run_callback go_to st.set_page snd page].
    rewrite (script_from_home L w (Some "home") []) by auto.
    f_equal. unfold home_page, st.button, st.pressed. rewrite Hw.
    reflexivity. }
  rewrite R. cbn [session rendered].
  unfold home_page, st.button, st.pressed. rewrite Hw.
  split; [reflexivity|]. split; [vm_compute; auto 10|].
  intros l X. vm_compute in X. in_log X. contradiction.
Qed.

End Navigation.

(** ** Ingestion *)

Section Ingestion.

Variable L : Lib.

Lemma string_app_assoc (a b c : string) :
  ((a ++ b) ++ c = a ++ (b ++ c))%string.
Proof. induction a as [|x a IH]; simpl; [reflexivity | now rewrite IH]. Qed.

(** X18.  The test of line 116 looks for [date] anywhere in the name and in
    any case: a name that passes still passes with anything put before or
    after it, and changing the case of its letters changes nothing.  So
    [updated_at] or [Candidate] count as date columns. *)
Theorem date_test_is_a_substring_test (c pre post : string) :
  is_date_col c = true ->
  is_date_col (pre ++ c ++ post) = true /\
  is_date_col (lower c) = true /\
  (forall c', lower c' = lower c -> is_date_col c' = true).
Proof.
  intros H. split; [|split].
  - apply is_date_col_iff in H. destruct H as [a [m [b [-> Hm]]]].
    apply is_date_col_iff. exists (pre ++ a)%string, m, (b ++ post)%string.
    split; [|exact Hm].
    rewrite !string_app_assoc. reflexivity.
  - unfold is_date_col in *.
    assert (E : lower (lower c) = lower c).
    { clear H. induction c as [|x s IH]; simpl; [reflexivity|].
      rewrite IH. f_equal. unfold lower_char.
      destruct ((65 <=? nat_of_ascii x)%nat && (nat_of_ascii x <=? 90)%nat)
        eqn:U; [|now rewrite U].
      apply andb_true_iff in U. destruct U as [U1 U2].
      apply Nat.leb_le in U1. apply Nat.leb_le in U2.
      rewrite nat_ascii_embedding by lia.
      replace ((nat_of_ascii x + 32 <=? 90)%nat) with false
        by (symmetry; apply Nat.leb_gt; lia).
      now rewrite andb_false_r. }
    now rewrite E.
  - intros c' E. unfold is_date_col in *. now rewrite E.
Qed.

Lemma filter_setitem (cols : list Column) (c : string) (dt : dtype)
  (vs : list cell) :
  filter (fun x => negb (c_name x =? c))
    (map (fun x => if c_name x =? c then mkColumn c dt vs else x) cols)
  = filter (fun x => negb (c_name x =? c)) cols.
Proof.
  induction cols as [|x cols IH]; simpl; [reflexivity|].
  destruct (c_name x =? c) eqn:E; simpl.
  - rewrite String.eqb_refl. exact IH.
  - rewrite E. simpl. now rewrite IH.
Qed.

(** The table after lines 121-122: indexed by the converted column, with
    the other columns as they were. *)
Lemma set_index_setitem_columns (df : DataFrame) (c : string)
  (col s : Series) :
  pandas.getitem df (Some c) = Ok col ->
  pandas.set_index (pandas.setitem df c datetime64 s) c
  = Ok (mkDataFrame (Some c) (s_values s)
          (filter (fun x => negb (c_name x =? c)) (df_columns df))).
Proof.
  unfold pandas.getitem, pandas.set_index, pandas.setitem. simpl.
  destruct (find _ (df_columns df)) as [x|] eqn:E; [|discriminate].
  intros _. rewrite (find_setitem _ _ _ _ _ E), filter_setitem. reflexivity.
Qed.

Lemma filter_both {A : Type} (f g : A -> bool) (l : list A) :
  filter f (filter g l) = filter (fun x => f x && g x) l.
Proof.
  induction l as [|x l IH]; simpl; [reflexivity|].
  destruct (g x); simpl; destruct (f x); simpl; congruence.
Qed.

Lemma select_after_index (c : string) (idx : list cell) (cols : list Column) :
  pandas.select_dtypes [float64; int64]
    (mkDataFrame (Some c) idx
       (filter (fun x => negb (c_name x =? c)) cols))
  = map c_name
      (filter (fun x => is_numeric x && negb (c_name x =? c)) cols).
Proof.
  unfold pandas.select_dtypes. cbn [df_columns]. f_equal.
  exact (filter_both is_numeric (fun x => negb (c_name x =? c)) cols).
Qed.

Lemma ts_analysis_offers (w : Widgets) (df : DataFrame) :
  adds (offers (pandas.select_dtypes [float64; int64] df))
    (ts_analysis L w df).
Proof.
  unfold_pages; unfold_calls. repeat adds_step.
  all: first [exact I | intros _; reflexivity].
Qed.

(** X16.  Once the first date column [c] is the index, it is no longer a
    column: the select box of the time-series page offers exactly the
    numeric columns of the uploaded table other than [c], in their order,
    and never [c] itself. *)
Theorem date_column_is_not_offered (w : Widgets) (f : UploadedFile)
  (df : DataFrame) (c : string) (opts : list string) :
  uploaded w = Some f ->
  lib_read_csv L f = Ok df ->
  first_date_column df c ->
  In (st_selectbox "Select Numeric Column" opts)
     (log (snd (run L w (Some "time_series")))) ->
  opts = map c_name
           (filter (fun x => is_numeric x && negb (c_name x =? c))
                   (df_columns df)) /\
  ~ In c opts.
Proof.
  intros Hup Hread Hfirst Hin.
  assert (Hno : ~ In c (map c_name
                   (filter (fun x => is_numeric x && negb (c_name x =? c))
                           (df_columns df)))).
  { intros X. apply in_map_iff in X. destruct X as [x [Hx Hf]].
    apply filter_In in Hf. destruct Hf as [_ Hf].
    apply andb_true_iff in Hf. destruct Hf as [_ Hf].
    rewrite Hx, String.eqb_refl in Hf. discriminate. }
  enough (E : opts = map c_name
             (filter (fun x => is_numeric x && negb (c_name x =? c))
                     (df_columns df))) by (split; [exact E | now rewrite E]).
  clear Hno.
  destruct (getitem_first_date _ _ Hfirst) as [col [Hcol Hname]].
  destruct (filter_first_date _ _ Hfirst) as [tl Htl].
  destruct (run L w (Some "time_series")) as [r w'] eqn:H.
  rewrite run_time_series in H. unfold time_series_page, ts_ingest in H.
  step_in H. rewrite Hup in H. step_in H. rewrite Hread in H.
  rewrite Htl in H. cbn [length Nat.eqb item nth_error] in H.
  step_in H. rewrite Hcol in H. step_in H.
  destruct (pd.parse_cells L (s_values col)) as [ds|e] eqn:Hparse.
  - rewrite (set_index_setitem_columns df c col _ Hcol) in H. step_in H.
    match type of H with
    | ts_analysis L w ?df' ?w0 = _ =>
        destruct (ts_analysis_offers w df' w0) as [new [E F]]
    end.
    rewrite H in E. cbv [fst snd log] in E, Hin. rewrite E in Hin.
    apply in_app_or in Hin. destruct Hin as [Hin|Hin].
    + rewrite Forall_forall in F. rewrite (F _ Hin eq_refl).
      apply select_after_index.
    + in_log Hin.
  - step_in H. injection H as <- <-. cbv [fst snd log] in Hin. in_log Hin.
Qed.

(** X8.  When the uploaded table has a date column that converts, but no
    numeric column besides it, the select box has no option and returns
    [None], and the run ends with [KeyError: None] at the first [df[column]]
    (line 137): the plot header is the last thing shown, no figure is made
    and no statistics routine is called. *)
Theorem no_numeric_column_is_a_key_error (w : Widgets) (f : UploadedFile)
  (df : DataFrame) (c : string) (col : Series) (ds : list cell) :
  uploaded w = Some f ->
  lib_read_csv L f = Ok df ->
  first_date_column df c ->
  pandas.getitem df (Some c) = Ok col ->
  pd.parse_cells L (s_values col) = Ok ds ->
  (forall x, In x (df_columns df) -> c_name x <> c -> is_numeric x = false) ->
  fst (run L w (Some "time_series")) = Err (Exception "KeyError" "None") /\
  (exists pre, log (snd (run L w (Some "time_series")))
               = st_subheader "📉 Time Series Plot" :: pre) /\
  In (st_selectbox "Select Numeric Column" [])
     (log (snd (run L w (Some "time_series")))) /\
  (forall e, In e (log (snd (run L w (Some "time_series")))) ->
             is_analysis e = false).
Proof.
  intros Hup Hread Hfirst Hcol Hparse Hnone.
  destruct (filter_first_date _ _ Hfirst) as [tl Htl].
  assert (Hopts : filter (fun x => is_numeric x && negb (c_name x =? c))
                    (df_columns df) = []).
  { clear - Hnone. induction (df_columns df) as [|x cols IH]; [reflexivity|].
    simpl. destruct (c_name x =? c) eqn:E.
    - rewrite andb_false_r. apply IH. intros; apply Hnone; simpl; auto.
    - rewrite (Hnone x) by
        (simpl; auto || (intros X; rewrite X, String.eqb_refl in E;
                         discriminate)).
      apply IH. intros; apply Hnone; simpl; auto. }
  destruct (run L w (Some "time_series")) as [r w'] eqn:H.
  rewrite run_time_series in H.
  unfold time_series_page, ts_ingest, ts_analysis, ts_plot in H.
  step_in H. rewrite Hup in H. step_in H. rewrite Hread in H.
  rewrite Htl in H. cbn [length Nat.eqb item nth_error] in H.
  step_in H. rewrite Hcol in H. step_in H. rewrite Hparse in H.
  rewrite (set_index_setitem_columns df c col _ Hcol) in H.
  rewrite select_after_index, Hopts in H.
  change (st.chosen w "Select Numeric Column" (map c_name [])) with
    (match nth_error (@nil string) (selected w "Select Numeric Column") with
     | Some o => Some o
     | None => None
     end) in H.
  replace (nth_error (@nil string) (selected w "Select Numeric Column"))
    with (@None string) in H by (now destruct (selected w _)).
  step_in H. cbn [pandas.getitem] in H. step_in H.
  injection H as <- <-. cbv [fst snd log].
  split; [reflexivity|]. split; [eexists; reflexivity|].
  split; [find_in_log|].
  intros e He. in_log He; subst e; reflexivity.
Qed.

End Ingestion.

(** ** What is raised and what is chained *)

(** Two values of the same expression are the same value. *)
Ltac same_value H :=
  match type of H with
  | ?call = _ =>
      match goal with
      | X : call = _ |- _ =>
          rewrite H in X;
          first [discriminate X | injection X; intros; subst]
      end
  end.

Section Chains.

Variable L : Lib.

Lemma analyses_read_nothing (w : Widgets) (df : DataFrame) :
  adds no_reading (ts_analysis L w df) /\
  adds no_reading (t_test L w df) /\
  adds no_reading (chi_square L w df).
Proof.
  repeat split; unfold_pages; unfold_calls; repeat adds_step; exact I.
Qed.

Lemma ts_analysis_tests_nothing (w : Widgets) (df : DataFrame) :
  adds no_testing (ts_analysis L w df).
Proof. unfold_pages; unfold_calls; repeat adds_step; exact I. Qed.

(** An event of the analysis [m], which adds only events that satisfy [Q],
    is an event that satisfies [Q] or an event of the prelude. *)
Lemma added_or_before (Q : event -> Prop) (m : M unit) (w0 w' : world)
  (r : res unit) (e : event) :
  adds Q m -> m w0 = (r, w') -> In e (log w') -> Q e \/ In e (log w0).
Proof.
  intros A H Hin. destruct (A w0) as [new [E F]]. rewrite H in E.
  cbn [snd] in E. rewrite E in Hin. apply in_app_or in Hin.
  rewrite Forall_forall in F. destruct Hin; auto.
Qed.

(** X7.  Reading the file is outside any [try], on both pages: in every run,
    when [pd.read_csv] raises on the uploaded file, the run ends with that
    very exception and the call is the last thing it does. *)
Theorem read_csv_exception_is_not_caught (w : Widgets) (p : option string)
  (r : res unit) (w' : world) (f : UploadedFile) (e : exn) :
  run L w p = (r, w') ->
  In (pd_read_csv f) (log w') ->
  lib_read_csv L f = Err e ->
  r = Err e /\ exists pre, log w' = pd_read_csv f :: pre.
Proof.
  unfold run, script, home_page, time_series_page, hypothesis_page,
    ts_ingest.
  intros H Hin He. exec_in H.
  all: try (injection H as <- <-; cbv [log] in Hin |- *; in_log Hin;
            injection Hin as ->;
            first [congruence | split; [congruence | eexists; reflexivity]]).
  all: exfalso;
    match type of H with
    | ts_analysis L _ ?df ?w0 = _ =>
        destruct (added_or_before no_reading _ _ _ _ _
                    (proj1 (analyses_read_nothing w df)) H Hin) as [X|X]
    | t_test L _ ?df ?w0 = _ =>
        destruct (added_or_before no_reading _ _ _ _ _
                    (proj1 (proj2 (analyses_read_nothing w df))) H Hin)
          as [X|X]
    | chi_square L _ ?df ?w0 = _ =>
        destruct (added_or_before no_reading _ _ _ _ _
                    (proj2 (proj2 (analyses_read_nothing w df))) H Hin)
          as [X|X]
    end;
    [exact X | cbv [log] in X; in_log X; injection X as ->; congruence].
Qed.

(** X12.  A hypothesis test is computed only in the run its button caused:
    a t-test call means [Run T-Test] was pressed, a contingency table or a
    chi-square call means [Run Chi-Square] was pressed. *)
Theorem tests_wait_for_their_button (w : Widgets) (p : option string)
  (r : res unit) (w' : world) :
  run L w p = (r, w') ->
  (forall a b, In (scipy_ttest_ind a b) (log w') ->
               clicked w = Some "Run T-Test") /\
  (forall a b, In (pd_crosstab a b) (log w') ->
               clicked w = Some "Run Chi-Square") /\
  (forall t, In (scipy_chi2_contingency t) (log w') ->
             clicked w = Some "Run Chi-Square").
Proof.
  intros H.
  assert (P : forall l, st.pressed w l = true -> clicked w = Some l).
  { intros l. unfold st.pressed. destruct (clicked w) as [l'|];
      [|discriminate].
    intros E. apply String.eqb_eq in E. now subst. }
  destruct (run_cases L w p r w' H)
    as [F | [df [[pg lg] [F [Ha | [Ha | Ha]]]]]];
    cbv [log] in F; clear H.
  - repeat split; intros;
      match goal with X : In _ _ |- _ => not_prelude F X end.
  - repeat split; intros;
      match goal with
      | X : In _ _ |- _ =>
          destruct (added_or_before no_testing _ _ _ _ _
                      (ts_analysis_tests_nothing w df) Ha X) as [Y|Y];
          [destruct Y | cbv [log] in Y; not_prelude F Y]
      end.
  - unfold_analysis Ha. exec_in Ha.
    all: injection Ha as <- <-; cbv [log] in *.
    all: repeat split; intros;
      match goal with
      | X : In _ _ |- _ => in_log X; try not_prelude F X
      end.
    all: apply P; assumption.
  - unfold_analysis Ha. exec_in Ha.
    all: injection Ha as <- <-; cbv [log] in *.
    all: repeat split; intros;
      match goal with
      | X : In _ _ |- _ => in_log X; try not_prelude F X
      end.
    all: apply P; assumption.
Qed.

(** X13.  The hypothesis tests are outside any [try]: in every run, when
    [ttest_ind], [crosstab] or [chi2_contingency] raises, the run ends with
    that very exception and the call is the last thing it does, so no
    verdict is shown. *)
Theorem test_exception_is_not_caught (w : Widgets) (p : option string)
  (r : res unit) (w' : world) (e : exn) :
  run L w p = (r, w') ->
  (forall a b, In (scipy_ttest_ind a b) (log w') ->
               lib_ttest_ind L a b = Err e ->
               r = Err e /\ exists pre, log w' = scipy_ttest_ind a b :: pre) /\
  (forall a b, In (pd_crosstab a b) (log w') ->
               lib_crosstab L a b = Err e ->
               r = Err e /\ exists pre, log w' = pd_crosstab a b :: pre) /\
  (forall t, In (scipy_chi2_contingency t) (log w') ->
             lib_chi2_contingency L t = Err e ->
             r = Err e /\
             exists pre, log w' = scipy_chi2_contingency t :: pre).
Proof.
  intros H.
  destruct (run_cases L w p r w' H)
    as [F | [df [[pg lg] [F [Ha | [Ha | Ha]]]]]];
    cbv [log] in F; clear H.
  - repeat split; intros; exfalso;
      match goal with X : In _ _ |- _ => not_prelude F X end.
  - repeat split; intros; exfalso;
      match goal with
      | X : In _ _ |- _ =>
          destruct (added_or_before no_testing _ _ _ _ _
                      (ts_analysis_tests_nothing w df) Ha X) as [Y|Y];
          [destruct Y | cbv [log] in Y; not_prelude F Y]
      end.
  - unfold_analysis Ha. exec_in Ha.
    all: injection Ha as <- <-; cbv [log] in *.
    all: repeat split; intros;
      match goal with
      | X : In _ _, Y : _ = Err _ |- _ =>
          in_log X; try not_prelude F X;
          injection X; intros; subst;
          first [congruence | eexists; reflexivity]
      end.
  - unfold_analysis Ha. exec_in Ha.
    all: injection Ha as <- <-; cbv [log] in *.
    all: repeat split; intros;
      match goal with
      | X : In _ _, Y : _ = Err _ |- _ =>
          in_log X; try not_prelude F X;
          injection X; intros; subst;
          first [congruence | eexists; reflexivity]
      end.
Qed.

(** X11.  The chi-square test is run on the contingency table of the two
    selected columns of the uploaded table.  In every run that reads the
    table [df] from the uploaded file and calls [chi2_contingency] on [t],
    the columns [a] and [b] of [df] chosen in the select boxes
    [Category 1] and [Category 2] over the text columns are the one pair
    given to [crosstab], [t] is the table [crosstab] returned for them, and
    [chi2_contingency] is called on nothing else.  When the test returns,
    the run ends normally and what it shows after the call is the card
    with the statistic, the p-value and the verdict, nothing more: the
    degrees of freedom and the expected counts are written nowhere, the
    only other thing written in the run being the preview of [df]. *)
Theorem chi_square_uses_the_crosstab (w : Widgets) (p : option string)
  (r : res unit) (w' : world) (f : UploadedFile) (df t : DataFrame) :
  run L w p = (r, w') ->
  uploaded w = Some f ->
  lib_read_csv L f = Ok df ->
  In (scipy_chi2_contingency t) (log w') ->
  (exists a b,
      pandas.getitem df
        (st.chosen w "Category 1" (pandas.select_dtypes [object] df))
      = Ok a /\
      pandas.getitem df
        (st.chosen w "Category 2" (pandas.select_dtypes [object] df))
      = Ok b /\
      lib_crosstab L a b = Ok t /\
      In (pd_crosstab a b) (log w') /\
      (forall a' b', In (pd_crosstab a' b') (log w') -> a' = a /\ b' = b) /\
      (forall t', In (scipy_chi2_contingency t') (log w') -> t' = t) /\
      (forall c,
          lib_chi2_contingency L t = Ok c ->
          r = Ok tt /\
          exists pre,
            log w'
            = st_markdown "</div>"
              :: (if (chi2_pvalue c <? 0.05)%float
                  then st_success "Reject H₀ — Dependent Variables"
                  else st_warning "Fail to Reject H₀ — Independent")
              :: st_write [v_str "p-value:"; v_float (chi2_pvalue c)]
              :: st_write [v_str "Chi-Square Value:";
                           v_float (chi2_statistic c)]
              :: st_subheader "📌 Chi-Square Result"
              :: st_markdown "<div class='card'>"
              :: scipy_chi2_contingency t
              :: pd_crosstab a b
              :: pre /\
            (forall args, In (st_write args) pre ->
                          args = [v_frame (pandas.head df)]))).
Proof.
  unfold run, script, home_page, time_series_page, hypothesis_page,
    ts_ingest.
  intros H. exec_in H.
  all: intros Hup Hread Hin.
  all: try (injection H as <- <-; cbv [log] in Hin; in_log Hin; fail).
  all: try discriminate Hup.
  all: injection Hup as ->.
  all: try (exfalso;
    match type of H with
    | ts_analysis L _ ?d ?w0 = _ =>
        destruct (added_or_before no_testing _ _ _ _ _
                    (ts_analysis_tests_nothing w d) H Hin) as [Y|Y];
        [destruct Y | cbv [log] in Y; in_log Y]
    | t_test L _ _ _ = _ =>
        unfold_analysis H; exec_in H;
        injection H as <- <-; cbv [log] in Hin; in_log Hin
    end; fail).
  all: same_value Hread.
  all: unfold_analysis H; exec_in H.
  all: injection H as <- <-; cbv [log] in *.
  all: in_log Hin.
  all: injection Hin as ->.
  all: eexists; eexists.
  all: (split; [reflexivity|]); (split; [reflexivity|]).
  all: (split; [eassumption|]); (split; [find_in_log|]).
  all: (split; [intros a' b' X; in_log X; injection X as -> ->;
                split; reflexivity|]).
  all: (split; [intros t' X; in_log X; injection X as ->; reflexivity|]).
  all: intros c Hc; try congruence.
  all: same_answer Hc.
  all: split; [reflexivity|].
  all: eexists;
    match goal with
    | E : PrimFloat.ltb _ _ = _ |- _ => rewrite E
    end;
    (split; [reflexivity|]).
  all: intros args X; in_log X; injection X as ->; reflexivity.
Qed.

(** X17.  The two samples of the t-test come from two select boxes over the
    same options: when both are at the same position (as they are before
    the user touches them), the t-test compares a column with itself. *)
Theorem same_selection_tests_a_column_against_itself (w : Widgets)
  (p : option string) (r : res unit) (w' : world) (a b : Series) :
  run L w p = (r, w') ->
  In (scipy_ttest_ind a b) (log w') ->
  selected w "Sample 1" = selected w "Sample 2" ->
  a = b.
Proof.
  intros H Hin Hsel.
  destruct (run_cases L w p r w' H)
    as [F | [df [[pg lg] [F [Ha | [Ha | Ha]]]]]];
    cbv [log] in F; clear H.
  - not_prelude F Hin.
  - exfalso.
    destruct (added_or_before no_testing _ _ _ _ _
                (ts_analysis_tests_nothing w df) Ha Hin) as [Y|Y];
      [destruct Y | cbv [log] in Y; not_prelude F Y].
  - unfold_analysis Ha. unfold st.selectbox, st.chosen in Ha.
    rewrite Hsel in Ha. exec_in Ha.
    all: try congruence.
    all: injection Ha as <- <-; cbv [log] in *.
    all: in_log Hin; try not_prelude F Hin.
    all: injection Hin as -> ->; congruence.
  - unfold_analysis Ha. exec_in Ha.
    all: injection Ha as <- <-; cbv [log] in *.
    all: in_log Hin; not_prelude F Hin.
Qed.

End Chains.

(** ** The sections of the time-series analysis *)

Section TimeSeriesSections.

Variable L : Lib.

(** X9.  The sections of the time-series page work on one and the same
    series, [df[column]] for the selected column: in every run, the series
    decomposed, the series tested by [adfuller] and the series given to
    [ARIMA] are equal. *)
Theorem sections_share_one_series (w : Widgets) (p : option string)
  (r : res unit) (w' : world) (s1 s2 : Series) :
  run L w p = (r, w') ->
  In (sm_adfuller s1) (log w') ->
  (forall m per, In (sm_seasonal_decompose s2 m per) (log w') -> s2 = s1) /\
  (forall o, In (sm_ARIMA s2 o) (log w') -> s2 = s1) /\
  (exists t, In (st_pyplot (Axes (12, 4)%Z (Some t) [(s1, None)] false))
                (log w')).
Proof.
  intros H Hin.
  destruct (run_cases L w p r w' H)
    as [F | [df [[pg lg] [F [Ha | [Ha | Ha]]]]]];
    cbv [log] in F; clear H; [not_prelude F Hin| | |];
    unfold_analysis Ha; exec_in Ha.
  all: try congruence.
  all: injection Ha as <- <-; cbv [log] in *.
  all: in_log Hin; try not_prelude F Hin.
  all: injection Hin as <-.
  all: split; [|split; [|eexists; find_in_log]].
  all: intros; match goal with
               | X : In _ _ |- _ => in_log X; try not_prelude F X
               end.
  all: match goal with X : _ = _ |- _ => injection X; intros; subst end.
  all: congruence.
Qed.

(** X10.  The forecast is a chain: in every run, the model that is fitted
    is the one [ARIMA] returned for the series, and the result asked for a
    forecast is the one [fit] returned for that model. *)
Theorem fit_and_forecast_are_chained (w : Widgets) (p : option string)
  (r : res unit) (w' : world) :
  run L w p = (r, w') ->
  (forall m, In (sm_fit m) (log w') ->
     exists s, In (sm_ARIMA s (1, 1, 1)%Z) (log w') /\
               lib_ARIMA L s (1, 1, 1)%Z = Ok m) /\
  (forall res n, In (sm_forecast res n) (log w') ->
     exists m, In (sm_fit m) (log w') /\ lib_fit L m = Ok res).
Proof.
  intros H.
  destruct (run_cases L w p r w' H)
    as [F | [df [[pg lg] [F [Ha | [Ha | Ha]]]]]];
    cbv [log] in F; clear H.
  - split; intros; exfalso;
      match goal with X : In _ _ |- _ => not_prelude F X end.
  - unfold_analysis Ha. exec_in Ha.
    all: try congruence.
    all: injection Ha as <- <-; cbv [log] in *.
    all: split; intros;
      match goal with
      | X : In _ _ |- _ => in_log X; try not_prelude F X
      end.
    all: match goal with X : _ = _ |- _ => injection X; intros; subst end.
    all: eexists; (split; [find_in_log | eassumption]).
  - unfold_analysis Ha. exec_in Ha.
    all: injection Ha as <- <-; cbv [log] in *.
    all: split; intros;
      match goal with X : In _ _ |- _ => in_log X; not_prelude F X end.
  - unfold_analysis Ha. exec_in Ha.
    all: injection Ha as <- <-; cbv [log] in *.
    all: split; intros;
      match goal with X : In _ _ |- _ => in_log X; not_prelude F X end.
Qed.

(** X14.  The decomposition is guarded by [except Exception], not by a bare
    [except]: in every run, when the decomposition raises something that is
    not an [Exception] (a [KeyboardInterrupt], say), it is not caught: the
    run ends with it, the call is the last thing the run does and the ADF
    section is not rendered. *)
Theorem decomposition_lets_base_exceptions_through (w : Widgets)
  (p : option string) (r : res unit) (w' : world) (ser : Series) (e : exn) :
  run L w p = (r, w') ->
  In (sm_seasonal_decompose ser "additive" 12) (log w') ->
  lib_seasonal_decompose L ser "additive" 12 = Err e ->
  is_Exception e = false ->
  r = Err e /\
  (exists pre, log w' = sm_seasonal_decompose ser "additive" 12 :: pre) /\
  ~ In (st_subheader "📌 ADF Stationarity Test") (log w').
Proof.
  intros H Hin He Hexc.
  destruct (run_cases L w p r w' H)
    as [F | [df [[pg lg] [F [Ha | [Ha | Ha]]]]]];
    cbv [log] in F; clear H; [not_prelude F Hin| | |];
    unfold_analysis Ha; exec_in Ha.
  all: try congruence.
  all: injection Ha as <- <-; cbv [log] in *.
  all: in_log Hin; try not_prelude F Hin.
  all: injection Hin as ->.
  all: try congruence.
  all: try same_error He.
  all: try congruence.
  all: split; [congruence | split; [eexists; reflexivity|]].
  all: intros Hf; in_log Hf; not_prelude F Hf.
Qed.

(** X19.  In every run, when the decomposition returns, its four-panel
    figure is shown at 12 by 8 inches, no decomposition warning is shown,
    and the ADF section follows. *)
Theorem decomposition_success_is_plotted (w : Widgets) (p : option string)
  (r : res unit) (w' : world) (ser : Series) (d : DecomposeResult) :
  run L w p = (r, w') ->
  In (sm_seasonal_decompose ser "additive" 12) (log w') ->
  lib_seasonal_decompose L ser "additive" 12 = Ok d ->
  In (st_pyplot (DecomposePlot d (Some (12, 8)%Z))) (log w') /\
  (forall msg, ~ In (st_warning ("Decomposition error: " ++ msg)) (log w')) /\
  In (sm_adfuller ser) (log w').
Proof.
  intros H Hin Hd.
  destruct (run_cases L w p r w' H)
    as [F | [df [[pg lg] [F [Ha | [Ha | Ha]]]]]];
    cbv [log] in F; clear H; [not_prelude F Hin| | |];
    unfold_analysis Ha; exec_in Ha.
  all: try congruence.
  all: injection Ha as <- <-; cbv [log] in *.
  all: in_log Hin; try not_prelude F Hin.
  all: injection Hin as ->.
  all: try congruence.
  all: same_answer Hd.
  all: split; [find_in_log | split; [|find_in_log]].
  all: intros msg Hf; in_log Hf; not_prelude F Hf.
Qed.

End TimeSeriesSections.

(** ** More of the script, on the samples *)

Lemma home_page_only_navigates_witness :
  fst (run Sample.lib MoreSamples.idle None) = Ok tt /\
  page (snd (run Sample.lib MoreSamples.idle None)) = Some "home".
Proof.
  destruct (home_page_only_navigates Sample.lib MoreSamples.idle None)
    as [Hr [Hp _]].
  - left; reflexivity.
  - split; [exact Hr | exact Hp].
Defined.

Lemma navigation_shows_on_the_next_run_witness :
  session (rerun Sample.lib (MoreSamples.click "📈 Time Series Analysis")
             first_load) = Some "time_series" /\
  In (st_file_uploader "Upload CSV")
     (rendered
        (rerun Sample.lib MoreSamples.idle
           (rerun Sample.lib (MoreSamples.click "📈 Time Series Analysis")
              first_load))).
Proof.
  destruct (navigation_shows_on_the_next_run Sample.lib first_load
              (MoreSamples.click "📈 Time Series Analysis") MoreSamples.idle)
    as [H1 [_ [_ [_ H5]]]].
  - apply reach_first.
  - left; reflexivity.
  - reflexivity.
  - discriminate.
  - split; [exact H1 | exact H5].
Defined.

Lemma back_returns_home_at_once_witness :
  session
    (rerun Sample.lib (MoreSamples.click "⬅ Back")
       (rerun Sample.lib MoreSamples.idle
          (rerun Sample.lib (MoreSamples.click "📊 Hypothesis Testing")
             first_load))) = Some "home".
Proof.
  destruct (back_returns_home_at_once Sample.lib
              (rerun Sample.lib MoreSamples.idle
                 (rerun Sample.lib
                    (MoreSamples.click "📊 Hypothesis Testing") first_load))
              (MoreSamples.click "⬅ Back"))
    as [H _].
  - apply reach_rerun. apply reach_rerun. apply reach_first.
  - in_sample_log.
  - reflexivity.
  - exact H.
Defined.

Lemma analysis_pages_keep_the_page_witness :
  page (snd (run Sample.lib (Sample.widgets "gaps.csv") (Some "time_series")))
  = Some "time_series".
Proof.
  apply (analysis_pages_keep_the_page Sample.lib (Sample.widgets "gaps.csv")).
  left; reflexivity.
Defined.

Lemma no_upload_no_work_witness :
  fst (run Sample.lib MoreSamples.idle (Some "hypothesis")) = Ok tt /\
  exists pre,
    log (snd (run Sample.lib MoreSamples.idle (Some "hypothesis")))
    = st_file_uploader "Upload CSV" :: pre.
Proof.
  destruct (no_upload_no_work Sample.lib MoreSamples.idle (Some "hypothesis"))
    as [Hr [Hl _]].
  - right; reflexivity.
  - reflexivity.
  - split; [exact Hr | exact Hl].
Defined.

Lemma read_csv_exception_is_not_caught_witness :
  fst (run MoreSamples.lib (Sample.widgets "broken.csv") (Some "hypothesis"))
  = Err (Exception "ParserError" "Error tokenizing data").
Proof.
  destruct (read_csv_exception_is_not_caught MoreSamples.lib
              (Sample.widgets "broken.csv") (Some "hypothesis")
              (fst (run MoreSamples.lib (Sample.widgets "broken.csv")
                      (Some "hypothesis")))
              (snd (run MoreSamples.lib (Sample.widgets "broken.csv")
                      (Some "hypothesis")))
              (Sample.file "broken.csv")
              (Exception "ParserError" "Error tokenizing data"))
    as [H _].
  - apply surjective_pairing.
  - in_sample_log.
  - reflexivity.
  - exact H.
Defined.

Lemma no_numeric_column_is_a_key_error_witness :
  fst (run MoreSamples.lib (Sample.widgets "notes.csv") (Some "time_series"))
  = Err (Exception "KeyError" "None") /\
  forall e,
    In e (log (snd (run MoreSamples.lib (Sample.widgets "notes.csv")
                      (Some "time_series")))) ->
    is_analysis e = false.
Proof.
  destruct (no_numeric_column_is_a_key_error MoreSamples.lib
              (Sample.widgets "notes.csv") (Sample.file "notes.csv")
              MoreSamples.notes "Date"
              (MoreSamples.column_of MoreSamples.notes "Date")
              [c_datetime 24289; c_datetime 24289])
    as [Hr [_ [_ Hno]]].
  - reflexivity.
  - reflexivity.
  - exists [], ["Note"]. split; [reflexivity|].
    split; [intros x []|]. exists "", "Date", "". split; reflexivity.
  - reflexivity.
  - reflexivity.
  - intros x [<-|[<-|[]]] Hx; [destruct Hx|]; reflexivity.
  - split; [exact Hr | exact Hno].
Defined.

Lemma sections_share_one_series_witness :
  exists t,
    In (st_pyplot
          (Axes (12, 4)%Z (Some t) [(Sample.sales Sample.short, None)] false))
       (log (snd (run Sample.lib (Sample.widgets "short.csv")
                    (Some "time_series")))).
Proof.
  destruct (sections_share_one_series Sample.lib (Sample.widgets "short.csv")
              (Some "time_series")
              (fst (run Sample.lib (Sample.widgets "short.csv")
                      (Some "time_series")))
              (snd (run Sample.lib (Sample.widgets "short.csv")
                      (Some "time_series")))
              (Sample.sales Sample.short) (Sample.sales Sample.short))
    as [_ [_ H]].
  - apply surjective_pairing.
  - in_sample_log.
  - exact H.
Defined.

Lemma fit_and_forecast_are_chained_witness :
  exists m,
    In (sm_fit m)
       (log (snd (run Sample.lib (Sample.widgets "monthly.csv")
                    (Some "time_series")))) /\
    lib_fit Sample.lib m
    = Ok (mkARIMAResults
            (mkARIMAModel (Sample.sales Sample.monthly) (1, 1, 1)%Z) []).
Proof.
  destruct (fit_and_forecast_are_chained Sample.lib
              (Sample.widgets "monthly.csv") (Some "time_series")
              (fst (run Sample.lib (Sample.widgets "monthly.csv")
                      (Some "time_series")))
              (snd (run Sample.lib (Sample.widgets "monthly.csv")
                      (Some "time_series"))))
    as [_ H].
  - apply surjective_pairing.
  - apply (H (mkARIMAResults
                (mkARIMAModel (Sample.sales Sample.monthly) (1, 1, 1)%Z) [])
             12%Z).
    in_sample_log.
Defined.

Lemma chi_square_uses_the_crosstab_witness :
  In (pd_crosstab (MoreSamples.column_of Sample.poll "Region")
        (MoreSamples.column_of Sample.poll "Outcome"))
     (log (snd (run MoreSamples.lib
                  (Sample.widgets_pressed "poll.csv" "Run Chi-Square")
                  (Some "hypothesis")))) /\
  lib_crosstab MoreSamples.lib (MoreSamples.column_of Sample.poll "Region")
    (MoreSamples.column_of Sample.poll "Outcome")
  = Ok (mkDataFrame (Some "Region") [c_str "N"; c_str "S"]
          [mkColumn "no" int64 [c_int 0; c_int 1];
           mkColumn "yes" int64 [c_int 1; c_int 0]]) /\
  fst (run MoreSamples.lib
         (Sample.widgets_pressed "poll.csv" "Run Chi-Square")
         (Some "hypothesis")) = Ok tt.
Proof.
  destruct (chi_square_uses_the_crosstab MoreSamples.lib
              (Sample.widgets_pressed "poll.csv" "Run Chi-Square")
              (Some "hypothesis")
              (fst (run MoreSamples.lib
                      (Sample.widgets_pressed "poll.csv" "Run Chi-Square")
                      (Some "hypothesis")))
              (snd (run MoreSamples.lib
                      (Sample.widgets_pressed "poll.csv" "Run Chi-Square")
                      (Some "hypothesis")))
              (Sample.file "poll.csv") Sample.poll
              (mkDataFrame (Some "Region") [c_str "N"; c_str "S"]
                 [mkColumn "no" int64 [c_int 0; c_int 1];
                  mkColumn "yes" int64 [c_int 1; c_int 0]]))
    as [a [b [Ha [Hb [Ht [Hin [_ [_ Hc]]]]]]]].
  - apply surjective_pairing.
  - reflexivity.
  - reflexivity.
  - in_sample_log.
  - vm_compute in Ha. injection Ha as <-.
    vm_compute in Hb. injection Hb as <-.
    split; [exact Hin | split; [exact Ht|]].
    apply (Hc (mkChi2 0 1 1
                 (MoreSamples.halves
                    (mkDataFrame (Some "Region") [c_str "N"; c_str "S"]
                       [mkColumn "no" int64 [c_int 0; c_int 1];
                        mkColumn "yes" int64 [c_int 1; c_int 0]])))).
    reflexivity.
Defined.

Lemma tests_wait_for_their_button_witness :
  clicked (Sample.widgets_pressed "poll.csv" "Run Chi-Square")
  = Some "Run Chi-Square".
Proof.
  destruct (tests_wait_for_their_button MoreSamples.lib
              (Sample.widgets_pressed "poll.csv" "Run Chi-Square")
              (Some "hypothesis")
              (fst (run MoreSamples.lib
                      (Sample.widgets_pressed "poll.csv" "Run Chi-Square")
                      (Some "hypothesis")))
              (snd (run MoreSamples.lib
                      (Sample.widgets_pressed "poll.csv" "Run Chi-Square")
                      (Some "hypothesis"))))
    as [_ [_ H]].
  - apply surjective_pairing.
  - apply (H (mkDataFrame (Some "Region") [c_str "N"; c_str "S"]
                [mkColumn "no" int64 [c_int 0; c_int 1];
                 mkColumn "yes" int64 [c_int 1; c_int 0]])).
    in_sample_log.
Defined.

Lemma test_exception_is_not_caught_witness :
  fst (run MoreSamples.lib
         (Sample.widgets_pressed "sparse.csv" "Run Chi-Square")
         (Some "hypothesis"))
  = Err (Exception "ValueError" "No data; observed has size 0.").
Proof.
  destruct (test_exception_is_not_caught MoreSamples.lib
              (Sample.widgets_pressed "sparse.csv" "Run Chi-Square")
              (Some "hypothesis")
              (fst (run MoreSamples.lib
                      (Sample.widgets_pressed "sparse.csv" "Run Chi-Square")
                      (Some "hypothesis")))
              (snd (run MoreSamples.lib
                      (Sample.widgets_pressed "sparse.csv" "Run Chi-Square")
                      (Some "hypothesis")))
              (Exception "ValueError" "No data; observed has size 0."))
    as [_ [_ H]].
  - apply surjective_pairing.
  - destruct (H (mkDataFrame (Some "Region") [] [])) as [Hr _].
    + in_sample_log.
    + reflexivity.
    + exact Hr.
Defined.

Lemma decomposition_lets_base_exceptions_through_witness :
  fst (run MoreSamples.interrupted (Sample.widgets "monthly.csv")
         (Some "time_series"))
  = Err (BaseException "KeyboardInterrupt" "").
Proof.
  destruct (decomposition_lets_base_exceptions_through MoreSamples.interrupted
              (Sample.widgets "monthly.csv") (Some "time_series")
              (fst (run MoreSamples.interrupted (Sample.widgets "monthly.csv")
                      (Some "time_series")))
              (snd (run MoreSamples.interrupted (Sample.widgets "monthly.csv")
                      (Some "time_series")))
              (Sample.sales Sample.monthly)
              (BaseException "KeyboardInterrupt" ""))
    as [H _].
  - apply surjective_pairing.
  - in_sample_log.
  - reflexivity.
  - reflexivity.
  - exact H.
Defined.

Lemma date_column_is_not_offered_witness :
  ["Sales"] = map c_name
                (filter (fun x => is_numeric x
                                  && negb (c_name x =? "OrderDate"))
                        (df_columns Sample.short)) /\
  ~ In "OrderDate" ["Sales"].
Proof.
  apply (date_column_is_not_offered Sample.lib (Sample.widgets "short.csv")
           (Sample.file "short.csv") Sample.short "OrderDate" ["Sales"]).
  - reflexivity.
  - reflexivity.
  - exists [], ["Sales"; "ShipDate"]. split; [reflexivity|].
    split; [intros x []|]. exists "Order", "Date", "". split; reflexivity.
  - in_sample_log.
Defined.

Lemma same_selection_tests_a_column_against_itself_witness :
  In (scipy_ttest_ind (MoreSamples.column_of Sample.survey "Score")
        (MoreSamples.column_of Sample.survey "Score"))
     (log (snd (run Sample.lib
                  (MoreSamples.clicking "survey.csv" "Run T-Test")
                  (Some "hypothesis")))) /\
  MoreSamples.column_of Sample.survey "Score"
  = MoreSamples.column_of Sample.survey "Score".
Proof.
  assert (H : In (scipy_ttest_ind (MoreSamples.column_of Sample.survey "Score")
                    (MoreSamples.column_of Sample.survey "Score"))
                 (log (snd (run Sample.lib
                              (MoreSamples.clicking "survey.csv" "Run T-Test")
                              (Some "hypothesis"))))) by in_sample_log.
  split; [exact H|].
  apply (same_selection_tests_a_column_against_itself Sample.lib
           (MoreSamples.clicking "survey.csv" "Run T-Test")
           (Some "hypothesis")
           (fst (run Sample.lib
                   (MoreSamples.clicking "survey.csv" "Run T-Test")
                   (Some "hypothesis")))
           (snd (run Sample.lib
                   (MoreSamples.clicking "survey.csv" "Run T-Test")
                   (Some "hypothesis")))).
  - apply surjective_pairing.
  - exact H.
  - reflexivity.
Defined.

Lemma date_test_is_a_substring_test_witness :
  is_date_col "updated_at" = true /\ is_date_col "date" = true.
Proof.
  destruct (date_test_is_a_substring_test "Date" "up" "d_at") as [H1 [H2 _]].
  - reflexivity.
  - split; [|exact H2].
    apply (date_test_is_a_substring_test "upDated_at" "" "");
      [exact H1 | reflexivity].
Defined.

Lemma decomposition_success_is_plotted_witness :
  In (sm_adfuller (Sample.sales Sample.monthly))
     (log (snd (run Sample.lib (Sample.widgets "monthly.csv")
                  (Some "time_series")))).
Proof.
  destruct (decomposition_success_is_plotted Sample.lib
              (Sample.widgets "monthly.csv") (Some "time_series")
              (fst (run Sample.lib (Sample.widgets "monthly.csv")
                      (Some "time_series")))
              (snd (run Sample.lib (Sample.widgets "monthly.csv")
                      (Some "time_series")))
              (Sample.sales Sample.monthly)
              (mkDecomposeResult (Sample.sales Sample.monthly)
                 (s_values (Sample.sales Sample.monthly))
                 (s_values (Sample.sales Sample.monthly))
                 (s_values (Sample.sales Sample.monthly))))
    as [_ [_ H]].
  - apply surjective_pairing.
  - in_sample_log.
  - reflexivity.
  - exact H.
Defined.
